(** * Image-captioning fine-tuning script: a shallow embedding

    This development embeds the repository-authored logic of
    [run_imagecap_finetuning.py] and states the properties of its
    specification over that embedding:

    - [DataCollatorWithPadding.__call__]  (padding and label masking),
    - [load_model]                        (architecture-name dispatch),
    - [prepare_dataset], [process_dataset] (per-row encoding, map and filter),
    - the dataset-loading and column-validation part of [main].

    Python values are a small tagged union, dicts are association lists in
    insertion order, and every effect of the script (log records, HTTP
    requests, calls into the dataset / model libraries, raised exceptions)
    is threaded through one trace-and-error monad.  The library calls the
    script delegates to (tokenizer, image processor, HTTP client, dataset
    loader, model loaders) are collaborators: they appear as the fields of
    a record the embedding is parameterised by. *)

From Stdlib Require Import ZArith List String Ascii Bool Lia Arith.
From Stdlib Require Import DecimalString QArith.
Import ListNotations.

Open Scope string_scope.
Open Scope Z_scope.

(* ===================================================================== *)
(** * Python values                                                       *)
(* ===================================================================== *)

(** A decoded in-memory image ([PIL.Image.Image]): its size and raster. *)
Record PIL_Image := { im_width : nat; im_height : nat; im_data : list Z }.

(** A dense array as handed around by the script: [torch.Tensor]s and the
    nested lists the image processor returns.  The element values are
    opaque to the script, only shapes are inspected ([squeeze], [stack]). *)
Record tensor := { shape : list nat; data : list Z }.

Inductive value :=
| VNone
| VBool (b : bool)
| VInt (n : Z)
| VStr (s : string)
| VInts (l : list Z)          (* a list of token ids *)
| VTensor (t : tensor)
| VImage (im : PIL_Image).

(** [x is not None] *)
Definition is_not_None (v : value) : bool :=
  match v with VNone => false | _ => true end.

(** [isinstance(x, Image.Image)] *)
Definition isinstance_Image (v : value) : bool :=
  match v with VImage _ => true | _ => false end.

(** Python truthiness ([if x], [not x], [a if x else b]). *)
Definition truthy (v : value) : bool :=
  match v with
  | VNone => false
  | VBool b => b
  | VInt n => negb (n =? 0)
  | VStr s => negb (String.eqb s EmptyString)
  | VInts l => match l with [] => false | _ => true end
  | VTensor _ => true
  | VImage _ => true
  end.

Definition str_of_nat (n : nat) : string :=
  NilZero.string_of_uint (Nat.to_uint n).

Definition str_of_Z (n : Z) : string :=
  NilZero.string_of_int (Z.to_int n).

(** [sep.join(l)] *)
Fixpoint join (sep : string) (l : list string) : string :=
  match l with
  | [] => EmptyString
  | [s] => s
  | s :: rest => s ++ sep ++ join sep rest
  end.

(** [str(x)] and the [{x}] of an f-string.  Arrays and images print
    through their type name only; no property below reads those. *)
Definition py_str (v : value) : string :=
  match v with
  | VNone => "None"
  | VBool true => "True"
  | VBool false => "False"
  | VInt n => str_of_Z n
  | VStr s => s
  | VInts l => "[" ++ join ", " (map str_of_Z l) ++ "]"
  | VTensor _ => "tensor(...)"
  | VImage _ => "<PIL.Image.Image>"
  end.

(** [sub in s] on strings: [sub] occurs in [s] as a contiguous run. *)
Fixpoint str_contains (sub s : string) : bool :=
  if String.prefix sub s then true
  else match s with
       | EmptyString => false
       | String _ s' => str_contains sub s'
       end.

(* --------------------------------------------------------------------- *)
(** ** Dicts: association lists in insertion order                        *)
(* --------------------------------------------------------------------- *)

Definition dict (V : Type) := list (string * V).

(** [d.keys()] *)
Definition keys {V} (d : dict V) : list string := map fst d.

(** [d.values()] *)
Definition values {V} (d : dict V) : list V := map snd d.

(** [d.get(k)] *)
Fixpoint dict_get {V} (k : string) (d : dict V) : option V :=
  match d with
  | [] => None
  | (k', v) :: d' => if String.eqb k k' then Some v else dict_get k d'
  end.

(** [k in d] *)
Definition dict_has {V} (k : string) (d : dict V) : bool :=
  match dict_get k d with Some _ => true | None => false end.

(** [d[k] = v]: an existing key keeps its position, a new one goes last. *)
Fixpoint dict_set {V} (k : string) (v : V) (d : dict V) : dict V :=
  match d with
  | [] => [(k, v)]
  | (k', v') :: d' =>
      if String.eqb k k' then (k', v) :: d' else (k', v') :: dict_set k v d'
  end.

(** [del d[k]] for a key that may be absent. *)
Definition dict_remove {V} (k : string) (d : dict V) : dict V :=
  filter (fun kv => negb (String.eqb k (fst kv))) d.

(** [d.update(e)] *)
Definition dict_update {V} (d e : dict V) : dict V :=
  fold_left (fun acc kv => dict_set (fst kv) (snd kv) acc) e d.

(** [repr(d.keys())] as an f-string prints it. *)
Definition repr_keys {V} (d : dict V) : string :=
  "dict_keys([" ++ join ", " (map (fun k => "'" ++ k ++ "'") (keys d)) ++ "])".

(* ===================================================================== *)
(** * Effects: a trace of observable events and raised exceptions         *)
(* ===================================================================== *)

Inductive exn :=
| ValueError (msg : string)
| KeyError (key : string)
| AttributeError (attr : string)
| RuntimeError (msg : string)
| StopIteration
| RequestException (msg : string)   (* requests.RequestException and subclasses *)
| IOError (msg : string)            (* OSError and subclasses *)
| OtherError (msg : string).        (* anything else a collaborator raises *)

Inductive level := ERROR | WARNING | INFO.

Inductive auto_class := AutoModelForCausalLM | AutoModelForVision2Seq.

Inductive event :=
| Log (lvl : level) (msg : string)
| HttpGet (url timeout : value)
| LoadDataset (path name split cache_dir : value)
| TrainTestSplit (test_size : Q)
| ConfigFromPretrained (path cache_dir : value)
| ImageProcessorFromPretrained (path cache_dir : value)
| TokenizerFromPretrained (path cache_dir : value) (use_fast : bool)
| ModelFromPretrained (cls : auto_class) (checkpoint : value).

(** A computation: the events it emitted, in order, and either the
    exception it raised or the value it returned. *)
Definition py (A : Type) : Type := (list event * (exn + A))%type.

Definition ret {A} (a : A) : py A := ([], inr a).

Definition raise {A} (e : exn) : py A := ([], inl e).

Definition emit (ev : event) : py unit := ([ev], inr tt).

Definition bind {A B} (c : py A) (k : A -> py B) : py B :=
  match c with
  | (t, inl e) => (t, inl e)
  | (t, inr a) => let '(t', r) := k a in ((t ++ t')%list, r)
  end.

(** [try: c  except <classes>: h] *)
Definition try_except {A} (c : py A) (catches : exn -> bool) (h : exn -> py A)
  : py A :=
  match c with
  | (t, inl e) =>
      if catches e then let '(t', r) := h e in ((t ++ t')%list, r) else (t, inl e)
  | (t, inr a) => (t, inr a)
  end.

(** Lifting the outcome of a collaborator call. *)
Definition lift {A} (r : exn + A) : py A := ([], r).

Declare Scope py_scope.
Delimit Scope py_scope with py.
Notation "x <- c ;; k" := (bind c (fun x => k))
  (at level 100, c at next level, right associativity) : py_scope.
Notation "c ;;; k" := (bind c (fun _ => k))
  (at level 100, right associativity) : py_scope.
Open Scope py_scope.

Definition trace {A} (c : py A) : list event := fst c.
Definition outcome {A} (c : py A) : exn + A := snd c.

(** [logger.error], [logger.warning], [logger.info] *)
Definition logger_error (msg : string) : py unit := emit (Log ERROR msg).
Definition logger_warning (msg : string) : py unit := emit (Log WARNING msg).
Definition logger_info (msg : string) : py unit := emit (Log INFO msg).

(** [d[k]]: raises [KeyError] on a missing key. *)
Definition subscript {V} (d : dict V) (k : string) : py V :=
  match dict_get k d with
  | Some v => ret v
  | None => raise (KeyError k)
  end.

(** The log records of a trace, and its network requests. *)
Definition logs_at (lvl : level) (t : list event) : list string :=
  flat_map (fun ev => match ev with
                      | Log l m =>
                          match lvl, l with
                          | ERROR, ERROR | WARNING, WARNING | INFO, INFO => [m]
                          | _, _ => []
                          end
                      | _ => []
                      end) t.

Definition is_network_io (ev : event) : bool :=
  match ev with HttpGet _ _ => true | _ => false end.

Definition is_model_or_processor_load (ev : event) : bool :=
  match ev with
  | ConfigFromPretrained _ _ | ImageProcessorFromPretrained _ _
  | TokenizerFromPretrained _ _ _ | ModelFromPretrained _ _ => true
  | _ => false
  end.

(* ===================================================================== *)
(** * Collaborators                                                       *)
(* ===================================================================== *)

(** The tokenizer the script is handed by [AutoTokenizer]: its pad token
    id ([None] when the vocabulary has no pad token) and its [__call__] on
    one text, which returns a dict ([input_ids], [attention_mask], ...). *)
Record Tokenizer := {
  pad_token_id : option Z;
  tokenizer_call : string -> exn + dict value
}.

(** The image processor handed over by [AutoImageProcessor]: its
    [__call__] on one image returns a dict ([pixel_values], ...). *)
Definition ImageProcessor := PIL_Image -> exn + dict value.

(** An HTTP response as [requests] returns it. *)
Record Response := { status_code : Z; content : list Z }.

(** [response.raise_for_status()]: [requests] raises [HTTPError], a
    [RequestException], for client (4xx) and server (5xx) statuses only. *)
Definition raise_for_status (r : Response) : py unit :=
  if (400 <=? status_code r) && (status_code r <? 600)
  then raise (RequestException ("HTTPError " ++ str_of_Z (status_code r)))
  else ret tt.

(* --------------------------------------------------------------------- *)
(** ** The part of [torch] the collator uses                              *)
(* --------------------------------------------------------------------- *)

(** [torch.tensor(x)] *)
Definition torch_tensor (v : value) : py tensor :=
  match v with
  | VTensor t => ret t
  | VInts l => ret {| shape := [List.length l]; data := l |}
  | VInt n => ret {| shape := []; data := [n] |}
  | VBool b => ret {| shape := []; data := [if b then 1 else 0] |}
  | VNone => raise (RuntimeError "Could not infer dtype of NoneType")
  | VStr _ => raise (OtherError "TypeError: new(): invalid data type 'str'")
  | VImage _ => raise (RuntimeError "Could not infer dtype of Image")
  end.

(** [t.squeeze(0)]: drops the leading dimension when its extent is 1. *)
Definition squeeze0 (t : tensor) : tensor :=
  match shape t with
  | 1%nat :: s => {| shape := s; data := data t |}
  | _ => t
  end.

Definition shape_eqb (s1 s2 : list nat) : bool :=
  if list_eq_dec Nat.eq_dec s1 s2 then true else false.

(** [torch.stack(ts)]: a new leading dimension over equally shaped
    tensors; an empty list or a shape mismatch raises. *)
Definition torch_stack (ts : list tensor) : py tensor :=
  match ts with
  | [] => raise (RuntimeError "stack expects a non-empty TensorList")
  | t0 :: _ =>
      if forallb (fun t => shape_eqb (shape t) (shape t0)) ts
      then ret {| shape := List.length ts :: shape t0;
                  data := flat_map data ts |}
      else raise (RuntimeError "stack expects each tensor to be equal size")
  end.

(** [for x in l: ...] collecting the results of a comprehension. *)
Fixpoint for_each {A B} (f : A -> py B) (l : list A) : py (list B) :=
  match l with
  | [] => ret []
  | a :: l' => b <- f a ;; bs <- for_each f l' ;; ret (b :: bs)
  end.

(* --------------------------------------------------------------------- *)
(** ** [tokenizer.pad]                                                    *)
(* --------------------------------------------------------------------- *)

Definition max_length (seqs : list (list Z)) : nat :=
  fold_right (fun s m => Nat.max (List.length s) m) 0%nat seqs.

Definition pad_row (pad : Z) (width : nat) (s : list Z) : list Z :=
  (s ++ repeat pad (width - List.length s))%list.

Definition mask_row (width : nat) (s : list Z) : list Z :=
  (repeat 1 (List.length s) ++ repeat 0 (width - List.length s))%list.

(** What [tokenizer.pad] accepts as one sequence of token ids: a list of
    ints or a one-dimensional tensor. *)
Definition token_ids (v : value) : option (list Z) :=
  match v with
  | VInts l => Some l
  | VTensor {| shape := [_]; data := l |} => Some l
  | _ => None
  end.

Definition as_token_ids (v : value) : py (list Z) :=
  match token_ids v with
  | Some l => ret l
  | None => raise (ValueError "type of input_ids unknown")
  end.

(** Modelled from the spec: the tokenizer library's [pad] is not part of
    the repository.  Section 4.4 step 3: "Right-pad all token-id sequences
    to the longest sequence in the batch, producing an attention mask
    marking real vs. pad positions."  The filler is the tokenizer's pad
    token id; a tokenizer without one refuses to pad. *)
Definition tokenizer_pad (tok : Tokenizer) (input_ids : list value)
  : py (list (list Z) * list (list Z)) :=
  match pad_token_id tok with
  | None => raise (ValueError "Asking to pad but the tokenizer does not have a padding token.")
  | Some pad =>
      seqs <- for_each as_token_ids input_ids ;;
      let width := max_length seqs in
      ret (map (pad_row pad width) seqs, map (mask_row width) seqs)
  end.

(* ===================================================================== *)
(** * [DataCollatorWithPadding]                                           *)
(* ===================================================================== *)

Module Batch.
(** The dict the collator returns ([BatchEncoding]). *)
Record t := {
  input_ids : list (list Z);
  attention_mask : option (list (list Z));
  pixel_values : tensor;
  labels : list (list Z)
}.
End Batch.

Module DataCollatorWithPadding.

Record t := {
  image_processor : ImageProcessor;     (* stored, not used by [__call__] *)
  tokenizer : Tokenizer;
  forward_attention_mask : bool
}.

(** [__init__]; [forward_attention_mask] defaults to [True]. *)
Definition __init__ (image_processor : ImageProcessor) (tokenizer : Tokenizer)
  (forward_attention_mask : bool) : t :=
  {| image_processor := image_processor; tokenizer := tokenizer;
     forward_attention_mask := forward_attention_mask |}.

(** The validation loop: [e] counts the features without [input_ids],
    each one is reported through [logger.error] with its index. *)
Fixpoint count_missing (i : nat) (features : list (dict value)) (e : nat)
  : py nat :=
  match features with
  | [] => ret e
  | f :: rest =>
      if negb (dict_has "input_ids" f)
      then logger_error ("Missing input_ids in feature " ++ str_of_nat i
                         ++ ": " ++ repr_keys f) ;;;
           count_missing (S i) rest (S e)
      else count_missing (S i) rest e
  end.

(** [labels[labels == pad] = -100] on a clone of the padded ids.
    With [pad_token_id = None] the comparison is [False] everywhere. *)
Definition mask_labels (pad : option Z) (ids : list (list Z)) : list (list Z) :=
  match pad with
  | Some p => map (map (fun x => if x =? p then -100 else x)) ids
  | None => ids
  end.

Definition __call__ (self : t) (features : list (dict value)) : py Batch.t :=
  e <- count_missing 0 features 0 ;;
  if (0 <? e)%nat
  then raise (ValueError ("Found " ++ str_of_nat e ++ "/"
                          ++ str_of_nat (List.length features)
                          ++ " features without input_ids."))
  else
    pixels <- for_each (fun f => v <- subscript f "pixel_values" ;;
                                 t <- torch_tensor v ;;
                                 ret (squeeze0 t)) features ;;
    pixel_values <- torch_stack pixels ;;
    input_ids <- for_each (fun f => subscript f "input_ids") features ;;
    batch <- tokenizer_pad (tokenizer self) input_ids ;;
    let labels := mask_labels (pad_token_id (tokenizer self)) (fst batch) in
    ret {| Batch.input_ids := fst batch;
           Batch.attention_mask :=
             if forward_attention_mask self then Some (snd batch) else None;
           Batch.pixel_values := pixel_values;
           Batch.labels := labels |}.

End DataCollatorWithPadding.

(* ===================================================================== *)
(** * Argument schema                                                     *)
(* ===================================================================== *)

Record ModelArguments := {
  model_name_or_path : value;
  config_name_or_path : value;        (* default None *)
  tokenizer_name : value;             (* default None *)
  cache_dir : value;                  (* default None *)
  use_fast_tokenizer : bool;          (* default True *)
  overwrite_vocabulary : bool         (* default False *)
}.

(** The two flags of [TrainingArguments] the script branches on. *)
Record ImageCapTrainingArguments := { do_train : bool; do_eval : bool }.

Record DataTrainingArguments := {
  dataset_name : option string;
  dataset_config_name : option string;
  max_train_samples : option Z;
  max_eval_samples : option Z;
  image_column_name : option string;
  text_column_name : option string;
  preprocessing_only : bool;
  train_split_name : option string;
  eval_split_name : option string;
  requests_timeout : Z
}.

Definition of_str (o : option string) : value :=
  match o with Some s => VStr s | None => VNone end.

Definition of_int (o : option Z) : value :=
  match o with Some n => VInt n | None => VNone end.

(** The attributes a [DataTrainingArguments] instance carries: exactly the
    declared fields of the dataclass, in declaration order. *)
Definition DataTrainingArguments_asdict (d : DataTrainingArguments) : dict value :=
  [ ("dataset_name", of_str (dataset_name d));
    ("dataset_config_name", of_str (dataset_config_name d));
    ("max_train_samples", of_int (max_train_samples d));
    ("max_eval_samples", of_int (max_eval_samples d));
    ("image_column_name", of_str (image_column_name d));
    ("text_column_name", of_str (text_column_name d));
    ("preprocessing_only", VBool (preprocessing_only d));
    ("train_split_name", of_str (train_split_name d));
    ("eval_split_name", of_str (eval_split_name d));
    ("requests_timeout", VInt (requests_timeout d)) ].

Definition DataTrainingArguments_fields : list string :=
  [ "dataset_name"; "dataset_config_name"; "max_train_samples";
    "max_eval_samples"; "image_column_name"; "text_column_name";
    "preprocessing_only"; "train_split_name"; "eval_split_name";
    "requests_timeout" ].

(** [data_args.<name>]: an attribute that is not a field of the dataclass
    raises [AttributeError]. *)
Definition getattr (d : DataTrainingArguments) (name : string) : py value :=
  match dict_get name (DataTrainingArguments_asdict d) with
  | Some v => ret v
  | None => raise (AttributeError name)
  end.

(* ===================================================================== *)
(** * Datasets                                                            *)
(* ===================================================================== *)

(** A loaded split: its column names and its rows. *)
Record Dataset := { column_names : list string; rows : list (dict value) }.

(** [x not in names] for a column-name list. *)
Definition not_in_columns (x : value) (names : list string) : bool :=
  match x with
  | VStr s => negb (existsb (String.eqb s) names)
  | _ => true
  end.

(** [next(iter(d.values()))] *)
Definition next_iter_values {V} (d : dict V) : py V :=
  match values d with
  | v :: _ => ret v
  | [] => raise StopIteration
  end.

(** [dataset.select(range(n))]: the first [n] rows; an index past the end
    is refused, an empty range selects nothing. *)
Definition select_range (d : Dataset) (n : Z) : py Dataset :=
  if n <=? Z.of_nat (List.length (rows d))
  then ret {| column_names := column_names d;
              rows := firstn (Z.to_nat n) (rows d) |}
  else raise (OtherError "IndexError: index out of range").

(** The rows of [dataset.map(f, remove_columns=cols)]: each row loses the
    removed columns and is updated with the dict [f] returns for it. *)
Definition Dataset_map (f : dict value -> py (dict value))
  (remove_columns : list string) (d : Dataset) : py (list (dict value)) :=
  for_each (fun row =>
              out <- f row ;;
              ret (dict_update
                     (fold_left (fun r c => dict_remove c r) remove_columns row)
                     out))
           (rows d).

(** The rows of [dataset.filter(p)]. *)
Fixpoint Dataset_filter (p : dict value -> py bool) (rs : list (dict value))
  : py (list (dict value)) :=
  match rs with
  | [] => ret []
  | r :: rest =>
      keep <- p r ;;
      kept <- Dataset_filter p rest ;;
      ret (if keep then r :: kept else kept)
  end.

(* ===================================================================== *)
(** * The script                                                          *)
(* ===================================================================== *)

Record PretrainedConfig := { architectures : option (list string) }.

Section Script.

(** A loaded model is whatever the model library returns. *)
Variable Model : Type.

(** The library calls the script delegates to.  Each returns either the
    exception it raises or its result. *)
Record Collaborators := {
  requests_get : value -> value -> exn + Response;
  Image_open : list Z -> exn + option PIL_Image;
  load_dataset : value -> value -> value -> value -> exn + Dataset;
  train_test_split : Dataset -> Q -> exn + dict Dataset;
  AutoConfig_from_pretrained : value -> value -> exn + PretrainedConfig;
  AutoImageProcessor_from_pretrained : value -> value -> exn + ImageProcessor;
  AutoTokenizer_from_pretrained : value -> value -> bool -> exn + Tokenizer;
  from_pretrained : auto_class -> value -> exn + Model;
  tokenizer_len : Tokenizer -> Z;
  resize_token_embeddings : Model -> Z -> exn + unit
}.

Variable env : Collaborators.

(* ------------------------------------------------------------------- *)
(** ** [load_model]                                                     *)
(* ------------------------------------------------------------------- *)

(** The dict literal of [load_model], in its iteration order. *)
Definition model_class_mapping : dict auto_class :=
  [ ("GitForCausalLM", AutoModelForCausalLM);
    ("BlipForConditionalGeneration", AutoModelForVision2Seq);
    ("VisionEncoderDecoderModel", AutoModelForVision2Seq) ].

(** [auto_class.__name__] *)
Definition class_name (c : auto_class) : string :=
  match c with
  | AutoModelForCausalLM => "AutoModelForCausalLM"
  | AutoModelForVision2Seq => "AutoModelForVision2Seq"
  end.

(** The [for ... : if arch_name in architecture: ...; break] loop. *)
Fixpoint find_model_class (mapping : dict auto_class) (architecture : string)
  : option auto_class :=
  match mapping with
  | [] => None
  | (arch_name, cls) :: rest =>
      if str_contains arch_name architecture then Some cls
      else find_model_class rest architecture
  end.

Definition load_model (checkpoint : value) (config : PretrainedConfig)
  : py (option Model) :=
  (* config.architectures[0] if config.architectures else None *)
  let architecture :=
    match architectures config with
    | Some (a :: _) => VStr a
    | Some [] | None => VNone
    end in
  if negb (truthy architecture)
  then raise (ValueError ("No architecture found in config for "
                          ++ py_str checkpoint))
  else
    match find_model_class model_class_mapping (py_str architecture) with
    | None =>
        logger_warning ("Unknown architecture " ++ py_str architecture ++ ".") ;;;
        ret None
    | Some model_class =>
        emit (ModelFromPretrained model_class checkpoint) ;;;
        model <- lift (from_pretrained env model_class checkpoint) ;;
        logger_info ("Loaded model with architecture " ++ py_str architecture
                     ++ " using " ++ class_name model_class) ;;;
        ret (Some model)
    end.

(* ------------------------------------------------------------------- *)
(** ** [prepare_dataset] and [process_dataset]                          *)
(* ------------------------------------------------------------------- *)

(** [sample[k]] where the key is itself a Python value. *)
Definition subscript_value (d : dict value) (k : value) : py value :=
  match k with
  | VStr s => subscript d s
  | _ => raise (KeyError (py_str k))
  end.

(** The dict returned for a sample that is to be dropped. *)
Definition null_sample : dict value :=
  [ ("pixel_values", VNone); ("input_ids", VNone); ("attention_mask", VNone) ].

(** Running the two encoders and assembling the encoded sample. *)
Definition encode (image_processor : ImageProcessor) (tokenizer : Tokenizer)
  (img : PIL_Image) (text : string) : py (dict value) :=
  image_input <- lift (image_processor img) ;;
  text_input <- lift (tokenizer_call tokenizer text) ;;
  pv <- subscript image_input "pixel_values" ;;
  ii <- subscript text_input "input_ids" ;;
  am <- subscript text_input "attention_mask" ;;
  ret [ ("pixel_values", pv); ("input_ids", ii); ("attention_mask", am) ].

(** [except (requests.RequestException, IOError)] *)
Definition is_RequestException_or_IOError (e : exn) : bool :=
  match e with
  | RequestException _ | IOError _ => true
  | _ => false
  end.

(** The closure [prepare_dataset] of [main], with the variables it
    captures ([data_args], [image_processor], [tokenizer]) as arguments. *)
Definition prepare_dataset (data_args : DataTrainingArguments)
  (image_processor : ImageProcessor) (tokenizer : Tokenizer)
  (sample : dict value) : py (dict value) :=
  icn <- getattr data_args "image_column_name" ;;
  image <- subscript_value sample icn ;;
  tcn <- getattr data_args "text_column_name" ;;
  tv <- subscript_value sample tcn ;;
  let text := py_str tv in
  match image with
  | VImage im => encode image_processor tokenizer im text
  | _ =>
      try_except
        (timeout <- getattr data_args "requests_timeout" ;;
         emit (HttpGet image timeout) ;;;
         response <- lift (requests_get env image timeout) ;;
         raise_for_status response ;;;
         img <- lift (Image_open env (content response)) ;;
         match img with
         | None =>
             logger_warning ("Invalid image from URL " ++ py_str image
                             ++ ", skipping sample.") ;;;
             ret null_sample
         | Some im => encode image_processor tokenizer im text
         end)
        is_RequestException_or_IOError
        (fun _ =>
           logger_warning ("Skipping sample due to error fetching URL "
                           ++ py_str image) ;;;
           ret null_sample)
  end.

(** The [filter] lambda of [process_dataset]; [and] short-circuits. *)
Definition all_fields_not_None (x : dict value) : py bool :=
  pv <- subscript x "pixel_values" ;;
  if negb (is_not_None pv) then ret false
  else
    ii <- subscript x "input_ids" ;;
    if negb (is_not_None ii) then ret false
    else
      am <- subscript x "attention_mask" ;;
      ret (is_not_None am).

(** The closure [process_dataset] of [main]; it captures
    [prepare_dataset] and [remove_columns]. *)
Definition process_dataset (prepare : dict value -> py (dict value))
  (remove_columns : list string) (dataset : Dataset) : py (list (dict value)) :=
  PIL_dataset <- Dataset_map (fun x => prepare x) remove_columns dataset ;;
  Dataset_filter all_fields_not_None PIL_dataset.

(* ------------------------------------------------------------------- *)
(** ** [main], from the parsed arguments to the inputs of the trainer   *)
(* ------------------------------------------------------------------- *)

(** [test_size=0.15] *)
Definition test_size : Q := 15 # 100.

(** Step 3 of [main]: loading the splits into [raw_datasets]. *)
Definition load_raw_datasets (model_args : ModelArguments)
  (data_args : DataTrainingArguments) (training_args : ImageCapTrainingArguments)
  : py (dict Dataset) :=
  let raw_datasets : dict Dataset := [] in
  raw_datasets <-
    (if do_train training_args then
       path <- getattr data_args "dataset_name" ;;
       name <- getattr data_args "dataset_config_name" ;;
       split <- getattr data_args "train_split_name" ;;
       emit (LoadDataset path name split (cache_dir model_args)) ;;;
       d <- lift (load_dataset env path name split (cache_dir model_args)) ;;
       ret (dict_set "train" d raw_datasets)
     else ret raw_datasets) ;;
  take_eval_branch <-
    (if do_eval training_args then
       esn <- getattr data_args "eval_split_name" ;;
       ret (is_not_None esn)
     else ret false) ;;
  if take_eval_branch : bool then
    path <- getattr data_args "dataset_name_or_path" ;;
    name <- getattr data_args "dataset_subset_name" ;;
    split <- getattr data_args "eval_split_name" ;;
    emit (LoadDataset path name split (cache_dir model_args)) ;;;
    d <- lift (load_dataset env path name split (cache_dir model_args)) ;;
    ret (dict_set "validation" d raw_datasets)
  else
    esn <- getattr data_args "eval_split_name" ;;
    if negb (truthy esn) then
      train <- subscript raw_datasets "train" ;;
      emit (TrainTestSplit test_size) ;;;
      new_dataset <- lift (train_test_split env train test_size) ;;
      new_train <- subscript new_dataset "train" ;;
      let raw_datasets := dict_set "train" new_train raw_datasets in
      new_test <- subscript new_dataset "test" ;;
      ret (dict_set "validation" new_test raw_datasets)
    else ret raw_datasets.

(** The two column checks that follow the loading. *)
Definition check_columns (data_args : DataTrainingArguments)
  (raw_datasets : dict Dataset) : py unit :=
  icn <- getattr data_args "image_column_name" ;;
  first <- next_iter_values raw_datasets ;;
  (if not_in_columns icn (column_names first)
   then raise (ValueError ("Column " ++ py_str icn ++ " not found in dataset."))
   else ret tt) ;;;
  tcn <- getattr data_args "text_column_name" ;;
  first <- next_iter_values raw_datasets ;;
  if not_in_columns tcn (column_names first)
  then raise (ValueError ("Column " ++ py_str tcn ++ " not found in dataset."))
  else ret tt.

(** [a if a else b] *)
Definition if_else (a b : value) : value := if truthy a then a else b.

(** [str(e)] of a caught exception. *)
Definition exn_str (e : exn) : string :=
  match e with
  | ValueError m | RuntimeError m | RequestException m | IOError m
  | OtherError m => m
  | KeyError k => "'" ++ k ++ "'"
  | AttributeError a => a
  | StopIteration => EmptyString
  end.

(** What [main] hands to the [Trainer]; the calls on the trainer itself
    (steps 8 and 10: saving, [train], [evaluate]) are pure delegation. *)
Inductive main_result :=
| PreprocessingOnly
| TrainerInputs (model : option Model)
    (train_dataset eval_dataset : option (list (dict value)))
    (data_collator : DataCollatorWithPadding.t).

Definition main (model_args : ModelArguments)
  (data_args : DataTrainingArguments) (training_args : ImageCapTrainingArguments)
  : py main_result :=
  (* 3. Load dataset *)
  raw_datasets <- load_raw_datasets model_args data_args training_args ;;
  check_columns data_args raw_datasets ;;;
  (* 4. Load processor and config *)
  let config_path := if_else (config_name_or_path model_args)
                             (model_name_or_path model_args) in
  emit (ConfigFromPretrained config_path (cache_dir model_args)) ;;;
  config <- lift (AutoConfig_from_pretrained env config_path (cache_dir model_args)) ;;
  let processor_path := if_else (model_name_or_path model_args)
                                (config_name_or_path model_args) in
  emit (ImageProcessorFromPretrained processor_path (cache_dir model_args)) ;;;
  image_processor <-
    lift (AutoImageProcessor_from_pretrained env processor_path (cache_dir model_args)) ;;
  let tokenizer_path := if_else (tokenizer_name model_args)
                                (model_name_or_path model_args) in
  emit (TokenizerFromPretrained tokenizer_path (cache_dir model_args)
          (use_fast_tokenizer model_args)) ;;;
  tokenizer <-
    lift (AutoTokenizer_from_pretrained env tokenizer_path (cache_dir model_args)
            (use_fast_tokenizer model_args)) ;;
  (* 5. Preprocess the datasets *)
  raw_datasets <-
    (match max_train_samples data_args with
     | Some n =>
         train <- subscript raw_datasets "train" ;;
         d <- select_range train n ;;
         ret (dict_set "train" d raw_datasets)
     | None => ret raw_datasets
     end) ;;
  raw_datasets <-
    (match max_eval_samples data_args with
     | Some n =>
         validation <- subscript raw_datasets "validation" ;;
         d <- select_range validation n ;;
         ret (dict_set "validation" d raw_datasets)
     | None => ret raw_datasets
     end) ;;
  train <- subscript raw_datasets "train" ;;
  let remove_columns := column_names train in
  let process := process_dataset
                   (prepare_dataset data_args image_processor tokenizer)
                   remove_columns in
  let vectorized_datasets : dict (list (dict value)) := [] in
  vectorized_datasets <-
    (if do_train training_args then
       train <- subscript raw_datasets "train" ;;
       v <- process train ;;
       ret (dict_set "train" v vectorized_datasets)
     else ret vectorized_datasets) ;;
  vectorized_datasets <-
    (if do_eval training_args then
       validation <- subscript raw_datasets "validation" ;;
       v <- process validation ;;
       ret (dict_set "validation" v vectorized_datasets)
     else ret vectorized_datasets) ;;
  if preprocessing_only data_args then
    (* the message goes on with the cache files of the datasets library *)
    logger_info "Data preprocessing finished. Files cached at" ;;;
    ret PreprocessingOnly
  else
    (* 7. Load pretrained model *)
    model <- load_model (if_else (model_name_or_path model_args)
                                 (config_name_or_path model_args)) config ;;
    (if overwrite_vocabulary model_args then
       try_except
         (match model with
          | Some m => lift (resize_token_embeddings env m (tokenizer_len env tokenizer))
          | None => raise (AttributeError "resize_token_embeddings")
          end)
         (fun _ => true)
         (fun e =>
            logger_warning ("Failed to resize token embeddings: "
                            ++ exn_str e ++ ".") ;;;
            raise e)
     else ret tt) ;;;
    (* 9. Define data collator *)
    let data_collator :=
      DataCollatorWithPadding.__init__ image_processor tokenizer true in
    (* 10. The arguments of [Trainer] *)
    train_dataset <-
      (if do_train training_args
       then v <- subscript vectorized_datasets "train" ;; ret (Some v)
       else ret None) ;;
    eval_dataset <-
      (if do_eval training_args
       then v <- subscript vectorized_datasets "validation" ;; ret (Some v)
       else ret None) ;;
    ret (TrainerInputs model train_dataset eval_dataset data_collator).

End Script.

Arguments requests_get {Model} c url timeout.
Arguments Image_open {Model} c bytes.
Arguments load_dataset {Model} c path name split cache_dir.
Arguments train_test_split {Model} c dataset test_size.
Arguments AutoConfig_from_pretrained {Model} c path cache_dir.
Arguments AutoImageProcessor_from_pretrained {Model} c path cache_dir.
Arguments AutoTokenizer_from_pretrained {Model} c path cache_dir use_fast.
Arguments from_pretrained {Model} c cls checkpoint.
Arguments tokenizer_len {Model} c tokenizer.
Arguments resize_token_embeddings {Model} c model size.
Arguments load_model {Model} env checkpoint config.
Arguments prepare_dataset {Model} env data_args image_processor tokenizer sample.
Arguments load_raw_datasets {Model} env model_args data_args training_args.
Arguments main {Model} env model_args data_args training_args.
Arguments PreprocessingOnly {Model}.
Arguments TrainerInputs {Model}.

(* ===================================================================== *)
(** * Vocabulary of the properties                                        *)
(* ===================================================================== *)

(** [enumerate(l)] *)
Definition enumerate {A} (l : list A) : list (nat * A) :=
  combine (seq 0 (List.length l)) l.

(** The features of a batch that carry no [input_ids], with their index. *)
Definition malformed (features : list (dict value)) : list (nat * dict value) :=
  filter (fun p => negb (dict_has "input_ids" (snd p))) (enumerate features).

(** The error record the collator logs for one malformed feature. *)
Definition missing_report (p : nat * dict value) : event :=
  Log ERROR ("Missing input_ids in feature " ++ str_of_nat (fst p) ++ ": "
             ++ repr_keys (snd p)).

(** The token-id sequence an encoded sample carries, if any. *)
Definition sample_token_ids (f : dict value) : option (list Z) :=
  match dict_get "input_ids" f with
  | Some v => token_ids v
  | None => None
  end.

(** Element [(i, j)] of a padded integer matrix. *)
Definition at_ (m : list (list Z)) (i j : nat) : Z := nth j (nth i m []) 0.

(** The label the collator is expected to give position [j] of a sample
    whose token ids are [s], when labels mask the padding and nothing
    else: the token id on a real position, -100 past the end. *)
Definition label_masking_padding_only (s : list Z) (j : nat) : Z :=
  if (j <? List.length s)%nat then nth j s 0 else -100.

(** The labels of every batch the collator returns mask exactly the
    padding positions. *)
Definition labels_mask_exactly_padding
  (self : DataCollatorWithPadding.t) (features : list (dict value)) : Prop :=
  forall b, outcome (DataCollatorWithPadding.__call__ self features) = inr b ->
  forall i f s j,
    nth_error features i = Some f -> sample_token_ids f = Some s ->
    (j < List.length (nth i (Batch.labels b) []))%nat ->
    at_ (Batch.labels b) i j = label_masking_padding_only s j.

(** What [load_model] does once it has settled on loader class [cls]:
    it calls that loader on the checkpoint, and on success logs the choice
    and returns the model. *)
Definition loads_through {Model} (env : Collaborators Model) (cls : auto_class)
  (checkpoint : value) (architecture : string) : py (option Model) :=
  match from_pretrained env cls checkpoint with
  | inl e => ([ModelFromPretrained cls checkpoint], inl e)
  | inr m =>
      ([ ModelFromPretrained cls checkpoint;
         Log INFO ("Loaded model with architecture " ++ architecture
                   ++ " using " ++ class_name cls) ],
       inr (Some m))
  end.

(** "No model": one warning, and [None] returned. *)
Definition warns_no_model {Model} (architecture : string) : py (option Model) :=
  ([Log WARNING ("Unknown architecture " ++ architecture ++ ".")], inr None).

(** The dispatch on an architecture name [a], first match winning. *)
Definition dispatches_on {Model} (env : Collaborators Model) (checkpoint : value)
  (config : PretrainedConfig) (a : string) : Prop :=
  (str_contains "GitForCausalLM" a = true ->
   load_model env checkpoint config =
   loads_through env AutoModelForCausalLM checkpoint a) /\
  (str_contains "GitForCausalLM" a = false ->
   str_contains "BlipForConditionalGeneration" a
   || str_contains "VisionEncoderDecoderModel" a = true ->
   load_model env checkpoint config =
   loads_through env AutoModelForVision2Seq checkpoint a) /\
  (str_contains "GitForCausalLM" a = false ->
   str_contains "BlipForConditionalGeneration" a = false ->
   str_contains "VisionEncoderDecoderModel" a = false ->
   load_model env checkpoint config = warns_no_model a).

(** The dispatcher dispatches on the first architecture name of every
    configuration whose list is non-empty. *)
Definition dispatches_on_first_architecture {Model} (env : Collaborators Model)
  (checkpoint : value) (config : PretrainedConfig) : Prop :=
  forall a rest, architectures config = Some (a :: rest) ->
                 dispatches_on env checkpoint config a.

(** The fetched bytes cannot be decoded as an image: [Image.open] raises
    an [IOError], or hands back no image. *)
Definition undecodable {Model} (env : Collaborators Model) (bytes : list Z) : Prop :=
  (exists m, Image_open env bytes = inl (IOError m)) \/ Image_open env bytes = inr None.

(** The ways fetching [url] can fail: a network error, a response whose
    status is [bad], or a payload that is not an image. *)
Definition fetch_fails {Model} (bad : Z -> Prop) (env : Collaborators Model)
  (url timeout : value) : Prop :=
  (exists m, requests_get env url timeout = inl (RequestException m)) \/
  (exists r, requests_get env url timeout = inr r /\ bad (status_code r)) \/
  (exists r, requests_get env url timeout = inr r /\ undecodable env (content r)).

(** A status outside the 2xx range. *)
Definition non_success_status (s : Z) : Prop := ~ (200 <= s < 300).

(** A client or server error status, the ones [raise_for_status] rejects. *)
Definition error_status (s : Z) : Prop := 400 <= s < 600.

(** A sample is dropped: after the single request nothing happens but one
    warning that names the URL, and the all-null sample is returned. *)
Definition drops_with_one_warning (url : string) (timeout : value)
  (c : py (dict value)) : Prop :=
  exists msg,
    c = ([HttpGet (VStr url) timeout; Log WARNING msg], inr null_sample) /\
    str_contains url msg = true.

(** Every sample whose image is a URL the fetch of which fails in one of
    the ways above (with [bad] statuses) is dropped. *)
Definition drops_unfetchable {Model} (bad : Z -> Prop) (env : Collaborators Model)
  (data_args : DataTrainingArguments) (image_processor : ImageProcessor)
  (tokenizer : Tokenizer) (sample : dict value) : Prop :=
  forall ic tc url tv,
    image_column_name data_args = Some ic ->
    text_column_name data_args = Some tc ->
    dict_get ic sample = Some (VStr url) ->
    dict_get tc sample = Some tv ->
    fetch_fails bad env (VStr url) (VInt (requests_timeout data_args)) ->
    drops_with_one_warning url (VInt (requests_timeout data_args))
      (prepare_dataset env data_args image_processor tokenizer sample).

(** An encoded sample none of whose three fields is null. *)
Definition usable (x : dict value) : Prop :=
  exists pv ii am,
    dict_get "pixel_values" x = Some pv /\ pv <> VNone /\
    dict_get "input_ids" x = Some ii /\ ii <> VNone /\
    dict_get "attention_mask" x = Some am /\ am <> VNone.


(** The call that loads the training split, and the event it leaves. *)
Definition train_load {Model} (env : Collaborators Model)
  (model_args : ModelArguments) (data_args : DataTrainingArguments)
  : exn + Dataset :=
  load_dataset env (of_str (dataset_name data_args))
    (of_str (dataset_config_name data_args))
    (of_str (train_split_name data_args)) (cache_dir model_args).

Definition train_load_event (model_args : ModelArguments)
  (data_args : DataTrainingArguments) : event :=
  LoadDataset (of_str (dataset_name data_args))
    (of_str (dataset_config_name data_args))
    (of_str (train_split_name data_args)) (cache_dir model_args).

(** The loaded training split is partitioned with [test_size = 0.15]: the
    new train part replaces it and the held-out part becomes the
    validation split; no other split is loaded. *)
Definition splits_training_set {Model} (env : Collaborators Model)
  (model_args : ModelArguments) (data_args : DataTrainingArguments)
  (training_args : ImageCapTrainingArguments) : Prop :=
  forall d new_dataset new_train new_test,
    do_train training_args = true ->
    train_load env model_args data_args = inr d ->
    train_test_split env d test_size = inr new_dataset ->
    dict_get "train" new_dataset = Some new_train ->
    dict_get "test" new_dataset = Some new_test ->
    load_raw_datasets env model_args data_args training_args =
    ([train_load_event model_args data_args; TrainTestSplit test_size],
     inr [("train", new_train); ("validation", new_test)]).

(** [eval_split_name] is unset: [None] or the empty string. *)
Definition eval_split_unset (data_args : DataTrainingArguments) : Prop :=
  eval_split_name data_args = None \/ eval_split_name data_args = Some EmptyString.

(** Every run with an unset [eval_split_name] splits the training set,
    whether or not evaluation is requested. *)
Definition held_out_split_when_unset {Model} (env : Collaborators Model)
  (model_args : ModelArguments) (data_args : DataTrainingArguments)
  (training_args : ImageCapTrainingArguments) : Prop :=
  eval_split_unset data_args ->
  splits_training_set env model_args data_args training_args.


(* ===================================================================== *)
(** * A small concrete world                                              *)
(* ===================================================================== *)

(** Toy collaborators on which the script can be run: a character-code
    tokenizer, an image processor that wraps the raster, a four-URL web
    and a three-row dataset. *)
Module Demo.

Definition char_ids (text : string) : list Z :=
  map (fun c => Z.of_nat (nat_of_ascii c)) (list_ascii_of_string text).

Definition tokenizer (pad : Z) : Tokenizer :=
  {| pad_token_id := Some pad;
     tokenizer_call := fun text =>
       inr [ ("input_ids", VInts (char_ids text));
             ("attention_mask", VInts (map (fun _ => 1) (char_ids text))) ] |}.

Definition image_processor : ImageProcessor :=
  fun im => inr [ ("pixel_values",
                   VTensor {| shape := [1%nat; im_height im; im_width im];
                              data := im_data im |}) ].

Definition dog : PIL_Image :=
  {| im_width := 2; im_height := 1; im_data := [10; 20] |}.

(** The first byte says whether the payload decodes. *)
Definition open_image (bytes : list Z) : exn + option PIL_Image :=
  match bytes with
  | 1 :: raster =>
      inr (Some {| im_width := List.length raster; im_height := 1;
                   im_data := raster |})
  | _ => inl (IOError "cannot identify image file")
  end.

Definition http_get (url timeout : value) : exn + Response :=
  match url with
  | VStr "http://img/cat" => inr {| status_code := 200; content := [1; 30; 40] |}
  | VStr "http://img/choices" => inr {| status_code := 300; content := [1; 50; 60] |}
  | VStr "http://img/gone" => inr {| status_code := 404; content := [] |}
  | VStr "http://img/text" => inr {| status_code := 200; content := [7; 7] |}
  | _ => inl (RequestException "ConnectionError")
  end.

Definition captions : Dataset :=
  {| column_names := ["image"; "text"];
     rows := [ [ ("image", VImage dog); ("text", VStr "a dog") ];
               [ ("image", VStr "http://img/cat"); ("text", VStr "a cat") ];
               [ ("image", VStr "http://img/broken"); ("text", VStr "broken") ] ] |}.

Definition load_captions (path name split cache_dir : value) : exn + Dataset :=
  match path with
  | VStr "captions" => inr captions
  | _ => inl (OtherError "DatasetNotFoundError")
  end.

(** A split without shuffling: the last [ceil(test_size * n)] rows are
    held out. *)
Definition split_in_order (d : Dataset) (q : Q) : exn + dict Dataset :=
  let n := Z.of_nat (List.length (rows d)) in
  let n_test := Z.to_nat ((Qnum q * n + Z.pos (Qden q) - 1) / Z.pos (Qden q)) in
  let n_train := (List.length (rows d) - n_test)%nat in
  if (n_train =? 0)%nat
  then inl (ValueError "the resulting train set will be empty")
  else inr [ ("train", {| column_names := column_names d;
                          rows := firstn n_train (rows d) |});
             ("test", {| column_names := column_names d;
                         rows := skipn n_train (rows d) |}) ].

(** A loaded model, as this world sees it: who loaded what. *)
Definition Model : Type := (auto_class * value)%type.

Definition env : Collaborators Model :=
  {| requests_get := http_get;
     Image_open := open_image;
     load_dataset := load_captions;
     train_test_split := split_in_order;
     AutoConfig_from_pretrained := fun _ _ =>
       inr {| architectures := Some ["GitForCausalLM"] |};
     AutoImageProcessor_from_pretrained := fun _ _ => inr image_processor;
     AutoTokenizer_from_pretrained := fun _ _ _ => inr (tokenizer 0);
     from_pretrained := fun cls checkpoint => inr (cls, checkpoint);
     tokenizer_len := fun _ => 256;
     resize_token_embeddings := fun _ _ => inr tt |}.

Definition model_args : ModelArguments :=
  {| model_name_or_path := VStr "microsoft/git-base";
     config_name_or_path := VNone;
     tokenizer_name := VNone;
     cache_dir := VNone;
     use_fast_tokenizer := true;
     overwrite_vocabulary := false |}.

Definition data_args (eval_split : option string) : DataTrainingArguments :=
  {| dataset_name := Some "captions";
     dataset_config_name := None;
     max_train_samples := None;
     max_eval_samples := None;
     image_column_name := Some "image";
     text_column_name := Some "text";
     preprocessing_only := false;
     train_split_name := Some "train";
     eval_split_name := eval_split;
     requests_timeout := 1 |}.

(** The same arguments, but with an image column the dataset lacks. *)
Definition data_args_picture (eval_split : option string) : DataTrainingArguments :=
  {| dataset_name := Some "captions";
     dataset_config_name := None;
     max_train_samples := None;
     max_eval_samples := None;
     image_column_name := Some "picture";
     text_column_name := Some "text";
     preprocessing_only := false;
     train_split_name := Some "train";
     eval_split_name := eval_split;
     requests_timeout := 1 |}.

Definition train_and_eval : ImageCapTrainingArguments :=
  {| do_train := true; do_eval := true |}.

(** The collator as [main] builds it, over the tokenizer padding with [pad]. *)
Definition collator (pad : Z) : DataCollatorWithPadding.t :=
  DataCollatorWithPadding.__init__ image_processor (tokenizer pad) true.

(** Three encoded samples of token-sequence lengths 3, 5 and 2. *)
Definition pixel : value := VTensor {| shape := [1%nat; 2%nat]; data := [0; 0] |}.

Definition features_3_5_2 : list (dict value) :=
  [ [ ("pixel_values", pixel); ("input_ids", VInts [11; 12; 13]);
      ("attention_mask", VInts [1; 1; 1]) ];
    [ ("pixel_values", pixel); ("input_ids", VInts [21; 22; 23; 24; 25]);
      ("attention_mask", VInts [1; 1; 1; 1; 1]) ];
    [ ("pixel_values", pixel); ("input_ids", VInts [31; 32]);
      ("attention_mask", VInts [1; 1]) ] ].

(** Rows whose image is a URL: one that answers 404, one whose payload
    is not an image, one that cannot be reached, and one that answers
    300 with an image as payload. *)
Definition row (url : string) : dict value :=
  [ ("image", VStr url); ("text", VStr "hi") ].

(** A batch whose first and last features carry no [input_ids]. *)
Definition features_missing : list (dict value) :=
  [ [ ("pixel_values", pixel) ];
    [ ("pixel_values", pixel); ("input_ids", VInts [1]) ];
    [] ].

(** A tokenizer that pads with its end-of-text token (id 50256), and two
    captions that end with that token. *)
Definition eos : Z := 50256.

Definition features_eos : list (dict value) :=
  [ [ ("pixel_values", pixel); ("input_ids", VInts [464; 3290; eos]);
      ("attention_mask", VInts [1; 1; 1]) ];
    [ ("pixel_values", pixel); ("input_ids", VInts [32; eos]);
      ("attention_mask", VInts [1; 1]) ] ].

End Demo.


(* ===================================================================== *)
(** * Further vocabulary                                                  *)
(* ===================================================================== *)





(** The [try] statement of [prepare_dataset], run on the cell [image] of
    the row and its caption [text]. *)
Definition fetch_and_encode {Model} (env : Collaborators Model)
  (data_args : DataTrainingArguments) (image_processor : ImageProcessor)
  (tokenizer : Tokenizer) (image : value) (text : string) : py (dict value) :=
  try_except
    (timeout <- getattr data_args "requests_timeout" ;;
     emit (HttpGet image timeout) ;;;
     response <- lift (requests_get env image timeout) ;;
     raise_for_status response ;;;
     img <- lift (Image_open env (content response)) ;;
     match img with
     | None =>
         logger_warning ("Invalid image from URL " ++ py_str image
                         ++ ", skipping sample.") ;;;
         ret null_sample
     | Some im => encode image_processor tokenizer im text
     end)
    is_RequestException_or_IOError
    (fun _ =>
       logger_warning ("Skipping sample due to error fetching URL "
                       ++ py_str image) ;;;
       ret null_sample).

(** The request [prepare_dataset] makes for the cell [image]. *)
Definition the_request (data_args : DataTrainingArguments) (image : value) : event :=
  HttpGet image (VInt (requests_timeout data_args)).

(** An image processor that fails while reading the raster, as on a
    truncated file. *)
Definition truncated_image_processor : ImageProcessor :=
  fun _ => inl (IOError "image file is truncated").

(** The verdict of the [filter] lambda on a row, a raised [KeyError]
    counting as a refusal. *)
Definition kept_by_filter (x : dict value) : bool :=
  match outcome (all_fields_not_None x) with
  | inr keep => keep
  | inl _ => false
  end.

(** The keys of an encoded sample, in the order [prepare_dataset] writes
    them. *)
Definition sample_keys : list string :=
  ["pixel_values"; "input_ids"; "attention_mask"].

(** The exception a run without [do_train] ends in: the undeclared
    attribute of the evaluation branch, the missing ["train"] split the
    other branch wants to partition, or the empty [raw_datasets] the
    column check iterates over. *)
Definition no_train_error (data_args : DataTrainingArguments)
  (training_args : ImageCapTrainingArguments) : exn :=
  if do_eval training_args && is_not_None (of_str (eval_split_name data_args))
  then AttributeError "dataset_name_or_path"
  else if negb (truthy (of_str (eval_split_name data_args)))
       then KeyError "train"
       else StopIteration.

(** The event is not a call of a model loader. *)
Definition not_model_load (ev : event) : Prop :=
  match ev with ModelFromPretrained _ _ => False | _ => True end.

(** The arguments of a preprocessing-only run over the small world, with
    the training set capped at two rows. *)
Definition preprocessing_only_args : DataTrainingArguments :=
  {| dataset_name := Some "captions";
     dataset_config_name := None;
     max_train_samples := Some 2;
     max_eval_samples := None;
     image_column_name := Some "image";
     text_column_name := Some "text";
     preprocessing_only := true;
     train_split_name := Some "train";
     eval_split_name := None;
     requests_timeout := 1 |}.

(* ===================================================================== *)
(** * Laws of the effect monad                                            *)
(* ===================================================================== *)

Lemma bind_ret_l {A B} (a : A) (k : A -> py B) : bind (ret a) k = k a.
Proof. unfold bind, ret. destruct (k a) as [t r]. reflexivity. Qed.

Lemma bind_raise {A B} (e : exn) (k : A -> py B) : bind (raise e) k = raise e.
Proof. reflexivity. Qed.

Lemma bind_emit {B} (ev : event) (k : unit -> py B) :
  bind (emit ev) k = (ev :: trace (k tt), outcome (k tt)).
Proof. unfold bind, emit, trace, outcome. destruct (k tt). reflexivity. Qed.

Lemma bind_lift_inr {A B} (a : A) (k : A -> py B) : bind (lift (inr a)) k = k a.
Proof. apply bind_ret_l. Qed.

Lemma bind_lift_inl {A B} (e : exn) (k : A -> py B) :
  bind (lift (inl e)) k = raise e.
Proof. reflexivity. Qed.

Lemma bind_pair {A B} (t : list event) (a : A) (k : A -> py B) :
  bind (t, inr a) k = ((t ++ trace (k a))%list, outcome (k a)).
Proof. unfold bind, trace, outcome. destruct (k a). reflexivity. Qed.

Lemma bind_inl {A B} (t : list event) (e : exn) (k : A -> py B) :
  bind (t, inl e) k = (t, inl e).
Proof. reflexivity. Qed.

Lemma outcome_bind_inl {A B} (c : py A) (k : A -> py B) (e : exn) :
  outcome c = inl e -> outcome (bind c k) = inl e.
Proof. destruct c as [t [e'|a]]; simpl; intros H; [congruence | discriminate]. Qed.

(** A sequence returns only if both of its parts do. *)
Lemma bind_inr_inv {A B} (c : py A) (k : A -> py B) (b : B) :
  outcome (bind c k) = inr b ->
  exists a, outcome c = inr a /\ outcome (k a) = inr b.
Proof.
  destruct c as [t [e|a]]; simpl.
  - discriminate.
  - intros H. exists a. split; [reflexivity|].
    destruct (k a) as [t' r]. exact H.
Qed.

Lemma trace_bind {A B} (c : py A) (k : A -> py B) :
  trace (bind c k) =
  (trace c ++ match outcome c with inr a => trace (k a) | inl _ => [] end)%list.
Proof.
  destruct c as [t [e|a]]; simpl; [now rewrite app_nil_r|].
  destruct (k a). reflexivity.
Qed.

Lemma bind_assoc {A B C} (c : py A) (f : A -> py B) (g : B -> py C) :
  bind (bind c f) g = bind c (fun x => bind (f x) g).
Proof.
  destruct c as [t [e|a]]; simpl; [reflexivity|].
  destruct (f a) as [t' [e|b]]; simpl; [reflexivity|].
  destruct (g b) as [t'' r]. now rewrite app_assoc.
Qed.

Lemma emit_bind_congr {B} (ev : event) (k k' : unit -> py B) :
  k tt = k' tt -> bind (emit ev) k = bind (emit ev) k'.
Proof. intros H. now rewrite !bind_emit, H. Qed.

Lemma pair_eta {A} (c : py A) : c = (trace c, outcome c).
Proof. destruct c; reflexivity. Qed.

Lemma for_each_inr {A B} (f : A -> py B) (l : list A) (bs : list B) :
  outcome (for_each f l) = inr bs ->
  Forall2 (fun a b => outcome (f a) = inr b) l bs.
Proof.
  revert bs. induction l as [|a l IH]; simpl; intros bs H.
  - inversion H. constructor.
  - apply bind_inr_inv in H. destruct H as [b [Hb H]].
    apply bind_inr_inv in H. destruct H as [bs' [Hbs H]].
    inversion H; subst. constructor; auto.
Qed.

Lemma subscript_inr {V} (d : dict V) (k : string) (v : V) :
  outcome (subscript d k) = inr v -> dict_get k d = Some v.
Proof.
  unfold subscript. destruct (dict_get k d); simpl; intros H;
    [inversion H; reflexivity | discriminate].
Qed.

Lemma subscript_get {V} (d : dict V) (k : string) (v : V) :
  dict_get k d = Some v -> subscript d k = ret v.
Proof. unfold subscript. intros ->. reflexivity. Qed.

(* ===================================================================== *)
(** * The batch collator                                                  *)
(* ===================================================================== *)

Lemma in_combine_seq {A} (l : list A) (s i : nat) (a : A) :
  In (i, a) (combine (seq s (List.length l)) l) <->
  (s <= i)%nat /\ nth_error l (i - s) = Some a.
Proof.
  revert s. induction l as [|x l IH]; intros s; simpl.
  - split; [tauto|]. intros [_ H]. destruct (i - s)%nat; discriminate.
  - rewrite IH. split.
    + intros [H | [Hle H]].
      * inversion H; subst. split; [lia|]. now rewrite Nat.sub_diag.
      * split; [lia|]. replace (i - s)%nat with (S (i - S s)) by lia. exact H.
    + intros [Hle H]. destruct (Nat.eq_dec s i) as [->|Hne].
      * rewrite Nat.sub_diag in H. simpl in H. inversion H. now left.
      * right. split; [lia|].
        replace (i - s)%nat with (S (i - S s)) in H by lia. exact H.
Qed.

Lemma in_enumerate {A} (l : list A) (i : nat) (a : A) :
  In (i, a) (enumerate l) <-> nth_error l i = Some a.
Proof.
  unfold enumerate. rewrite in_combine_seq, Nat.sub_0_r.
  split; [tauto | intros H; split; [lia | exact H]].
Qed.

Lemma in_malformed (features : list (dict value)) (i : nat) (f : dict value) :
  In (i, f) (malformed features) <->
  nth_error features i = Some f /\ dict_has "input_ids" f = false.
Proof.
  unfold malformed. rewrite filter_In, in_enumerate. simpl.
  rewrite negb_true_iff. tauto.
Qed.

(** The validation loop logs one record per malformed feature, in order,
    and adds their number to the counter. *)
Lemma count_missing_spec (features : list (dict value)) (i e : nat) :
  DataCollatorWithPadding.count_missing i features e =
  (map missing_report
       (filter (fun p => negb (dict_has "input_ids" (snd p)))
               (combine (seq i (List.length features)) features)),
   inr (e + List.length
              (filter (fun p => negb (dict_has "input_ids" (snd p)))
                      (combine (seq i (List.length features)) features)))%nat).
Proof.
  revert i e. induction features as [|f rest IH]; intros i e.
  - simpl. unfold ret. now rewrite Nat.add_0_r.
  - cbn [DataCollatorWithPadding.count_missing List.length seq combine filter snd].
    destruct (dict_has "input_ids" f); cbn [negb].
    + apply IH.
    + unfold logger_error. rewrite bind_emit, IH.
      cbn [trace outcome fst snd map List.length].
      f_equal. f_equal. lia.
Qed.

(** C5. A batch in which some feature lacks [input_ids] is refused as a
    whole: the collator logs one error record per malformed feature,
    carrying its index, and then raises a [ValueError] carrying their
    count; no batch is returned and no feature is skipped. *)
Theorem collator_rejects_missing_input_ids
  (self : DataCollatorWithPadding.t) (features : list (dict value)) :
  (exists f, In f features /\ dict_has "input_ids" f = false) ->
  let bad := malformed features in
  bad <> [] /\
  (forall i f, In (i, f) bad <->
               nth_error features i = Some f /\ dict_has "input_ids" f = false) /\
  DataCollatorWithPadding.__call__ self features =
    (map missing_report bad,
     inl (ValueError ("Found " ++ str_of_nat (List.length bad) ++ "/"
                      ++ str_of_nat (List.length features)
                      ++ " features without input_ids."))).
Proof.
  intros [f [Hin Hf]] bad.
  assert (Hne : bad <> []).
  { apply In_nth_error in Hin. destruct Hin as [i Hi].
    assert (Hb : In (i, f) bad) by (apply in_malformed; auto).
    intros E. rewrite E in Hb. exact Hb. }
  split; [exact Hne|]. split; [intros; apply in_malformed|].
  unfold DataCollatorWithPadding.__call__.
  rewrite count_missing_spec. fold (enumerate features). fold (malformed features).
  fold bad. rewrite bind_pair. simpl.
  destruct bad as [|b bad']; [congruence|]. simpl.
  now rewrite app_nil_r.
Qed.

Lemma collator_rejects_missing_input_ids_witness :
  DataCollatorWithPadding.__call__
    (Demo.collator 0) Demo.features_missing =
  ([ Log ERROR "Missing input_ids in feature 0: dict_keys(['pixel_values'])";
     Log ERROR "Missing input_ids in feature 2: dict_keys([])" ],
   inl (ValueError "Found 2/3 features without input_ids.")).
Proof.
  apply (collator_rejects_missing_input_ids
           (Demo.collator 0)
           Demo.features_missing).
  exists []. split; [simpl; tauto | reflexivity].
Defined.

(* --------------------------------------------------------------------- *)
(** ** Padding                                                            *)
(* --------------------------------------------------------------------- *)

Lemma length_le_max_length (seqs : list (list Z)) (i : nat) (s : list Z) :
  nth_error seqs i = Some s -> (List.length s <= max_length seqs)%nat.
Proof.
  revert i. induction seqs as [|x seqs IH]; intros [|i] H; simpl in *;
    try discriminate.
  - inversion H; subst. lia.
  - specialize (IH _ H). lia.
Qed.

Lemma pad_row_length (pad : Z) (width : nat) (s : list Z) :
  (List.length s <= width)%nat -> List.length (pad_row pad width s) = width.
Proof.
  intros H. unfold pad_row. rewrite length_app, repeat_length. lia.
Qed.

Lemma mask_row_length (width : nat) (s : list Z) :
  (List.length s <= width)%nat -> List.length (mask_row width s) = width.
Proof.
  intros H. unfold mask_row. rewrite length_app, !repeat_length. lia.
Qed.

Lemma nth_repeat_lt {A} (a d : A) (n j : nat) :
  (j < n)%nat -> nth j (repeat a n) d = a.
Proof.
  intros H. apply repeat_spec with (n := n). apply nth_In.
  now rewrite repeat_length.
Qed.

Lemma nth_pad_row (pad : Z) (width : nat) (s : list Z) (j : nat) :
  (j < width)%nat ->
  nth j (pad_row pad width s) 0 =
  if (j <? List.length s)%nat then nth j s 0 else pad.
Proof.
  intros Hj. unfold pad_row. destruct (Nat.ltb_spec j (List.length s)).
  - now apply app_nth1.
  - rewrite app_nth2 by lia. apply nth_repeat_lt. lia.
Qed.

Lemma nth_mask_row (width : nat) (s : list Z) (j : nat) :
  (j < width)%nat ->
  nth j (mask_row width s) 0 = if (j <? List.length s)%nat then 1 else 0.
Proof.
  intros Hj. unfold mask_row. destruct (Nat.ltb_spec j (List.length s)).
  - rewrite app_nth1 by (now rewrite repeat_length). now apply nth_repeat_lt.
  - rewrite app_nth2; rewrite repeat_length; [|lia]. apply nth_repeat_lt. lia.
Qed.

Lemma nth_map_of_nth_error {A B} (f : A -> B) (l : list A) (i : nat) (a : A) (d : B) :
  nth_error l i = Some a -> nth i (map f l) d = f a.
Proof.
  revert i. induction l as [|x l IH]; intros [|i] H; simpl in *;
    try discriminate; [now inversion H | now apply IH].
Qed.

Lemma nth_map_lt {A B} (f : A -> B) (l : list A) (j : nat) (d : B) (d' : A) :
  (j < List.length l)%nat -> nth j (map f l) d = f (nth j l d').
Proof.
  revert j. induction l as [|x l IH]; intros [|j] H; simpl in *; try lia;
    [reflexivity | apply IH; lia].
Qed.

Lemma sample_token_ids_of_reads (features : list (dict value))
  (input_ids : list value) (seqs : list (list Z)) :
  Forall2 (fun f v => outcome (subscript f "input_ids") = inr v) features input_ids ->
  Forall2 (fun v s => outcome (as_token_ids v) = inr s) input_ids seqs ->
  Forall2 (fun f s => sample_token_ids f = Some s) features seqs.
Proof.
  intros H1. revert seqs. induction H1 as [|f v fs vs Hfv H1 IH]; intros seqs H2.
  - inversion H2. constructor.
  - inversion H2 as [|v' s vs' ss Hvs H2']; subst. constructor; [|now apply IH].
    apply subscript_inr in Hfv. unfold sample_token_ids. rewrite Hfv.
    unfold as_token_ids in Hvs. destruct (token_ids v); simpl in Hvs;
      [now inversion Hvs | discriminate].
Qed.

(** What a returned batch is made of. *)
Lemma collator_returns_inv (self : DataCollatorWithPadding.t)
  (features : list (dict value)) (b : Batch.t) :
  outcome (DataCollatorWithPadding.__call__ self features) = inr b ->
  exists pad seqs,
    pad_token_id (DataCollatorWithPadding.tokenizer self) = Some pad /\
    Forall2 (fun f s => sample_token_ids f = Some s) features seqs /\
    Batch.input_ids b = map (pad_row pad (max_length seqs)) seqs /\
    Batch.attention_mask b =
      (if DataCollatorWithPadding.forward_attention_mask self
       then Some (map (mask_row (max_length seqs)) seqs) else None) /\
    Batch.labels b =
      map (map (fun x => if x =? pad then -100 else x)) (Batch.input_ids b).
Proof.
  unfold DataCollatorWithPadding.__call__. intros H.
  apply bind_inr_inv in H. destruct H as [e [_ H]].
  destruct (0 <? e)%nat; [discriminate|].
  apply bind_inr_inv in H. destruct H as [pixels [_ H]].
  apply bind_inr_inv in H. destruct H as [pixel_values [_ H]].
  apply bind_inr_inv in H. destruct H as [input_ids [Hreads H]].
  apply bind_inr_inv in H. destruct H as [batch [Hpad H]].
  unfold tokenizer_pad in Hpad.
  destruct (pad_token_id (DataCollatorWithPadding.tokenizer self)) as [pad|] eqn:Epad;
    [|discriminate].
  apply bind_inr_inv in Hpad. destruct Hpad as [seqs [Hseqs Hpad]].
  simpl in Hpad. inversion Hpad; subst batch; clear Hpad.
  simpl in H. inversion H; subst b; clear H. simpl.
  exists pad, seqs. repeat split.
  apply sample_token_ids_of_reads with (input_ids := input_ids);
    now apply for_each_inr.
Qed.

(** C1 (amended). In every batch the collator returns, all rows of
    [input_ids], [attention_mask] and [labels] have the width of the longest
    token sequence, the rows are the samples right-padded with the pad token
    id, and [labels] is -100 wherever the padded [input_ids] holds the pad
    token id and the token id elsewhere: -100 on every padding position,
    and on a real position the original token id unless that id is the
    pad token id itself. *)
Theorem collator_labels_mask_pad_token_id
  (self : DataCollatorWithPadding.t) (features : list (dict value)) (b : Batch.t) :
  outcome (DataCollatorWithPadding.__call__ self features) = inr b ->
  exists pad seqs,
    pad_token_id (DataCollatorWithPadding.tokenizer self) = Some pad /\
    Forall2 (fun f s => sample_token_ids f = Some s) features seqs /\
    let width := max_length seqs in
    List.length (Batch.input_ids b) = List.length features /\
    List.length (Batch.labels b) = List.length features /\
    Forall (fun row => List.length row = width) (Batch.input_ids b) /\
    Forall (fun row => List.length row = width) (Batch.labels b) /\
    (DataCollatorWithPadding.forward_attention_mask self = true ->
     exists mask,
       Batch.attention_mask b = Some mask /\
       Forall (fun row => List.length row = width) mask /\
       forall i s j, nth_error seqs i = Some s -> (j < width)%nat ->
         at_ mask i j = if (j <? List.length s)%nat then 1 else 0) /\
    forall i s j, nth_error seqs i = Some s -> (j < width)%nat ->
      at_ (Batch.input_ids b) i j =
        (if (j <? List.length s)%nat then nth j s 0 else pad) /\
      at_ (Batch.labels b) i j =
        (if (j <? List.length s)%nat
         then (if nth j s 0 =? pad then -100 else nth j s 0)
         else -100).
Proof.
  intros H. apply collator_returns_inv in H.
  destruct H as [pad [seqs [Hpad [Hseqs [Hids [Hmask Hlabels]]]]]].
  exists pad, seqs. split; [exact Hpad|]. split; [exact Hseqs|]. intros width.
  assert (Hlen : List.length seqs = List.length features)
    by (symmetry; eapply Forall2_length; eassumption).
  assert (Hw : forall s, In s seqs -> (List.length s <= width)%nat).
  { intros s Hin. apply In_nth_error in Hin. destruct Hin as [i Hi].
    eapply length_le_max_length; eassumption. }
  assert (Hrows : Forall (fun row => List.length row = width) (Batch.input_ids b)).
  { rewrite Hids. apply Forall_forall. intros row Hin.
    apply in_map_iff in Hin. destruct Hin as [s [<- Hin]].
    apply pad_row_length. now apply Hw. }
  repeat split.
  - now rewrite Hids, length_map.
  - now rewrite Hlabels, length_map, Hids, length_map.
  - exact Hrows.
  - rewrite Hlabels. apply Forall_forall. intros row Hin.
    apply in_map_iff in Hin. destruct Hin as [r [<- Hin]].
    rewrite length_map. rewrite Forall_forall in Hrows. now apply Hrows.
  - intros Hfwd. rewrite Hfwd in Hmask. eexists. split; [exact Hmask|]. split.
    + apply Forall_forall. intros row Hin.
      apply in_map_iff in Hin. destruct Hin as [s [<- Hin]].
      apply mask_row_length. now apply Hw.
    + intros i s j Hi Hj. unfold at_.
      rewrite (nth_map_of_nth_error _ _ _ _ _ Hi). now apply nth_mask_row.
  - unfold at_. rewrite Hids.
    rewrite (nth_map_of_nth_error _ _ _ _ _ H). now apply nth_pad_row.
  - unfold at_. rewrite Hlabels, Hids, map_map.
    rewrite (nth_map_of_nth_error _ _ _ _ _ H).
    assert (Hl : (j < List.length (pad_row pad width s))%nat).
    { rewrite pad_row_length; [exact H0|]. apply Hw.
      eapply nth_error_In; eassumption. }
    rewrite (nth_map_lt _ _ _ 0 0) by exact Hl.
    rewrite nth_pad_row by exact H0.
    destruct (j <? List.length s)%nat; [reflexivity|].
    now rewrite Z.eqb_refl.
Qed.

(** The three samples of lengths 3, 5 and 2 give a batch of width 5. *)
Lemma collator_labels_mask_pad_token_id_witness :
  exists b,
    outcome (DataCollatorWithPadding.__call__
               (Demo.collator 0)
               Demo.features_3_5_2) = inr b /\
    Batch.input_ids b =
      [ [11; 12; 13; 0; 0]; [21; 22; 23; 24; 25]; [31; 32; 0; 0; 0] ] /\
    Batch.attention_mask b =
      Some [ [1; 1; 1; 0; 0]; [1; 1; 1; 1; 1]; [1; 1; 0; 0; 0] ] /\
    Batch.labels b =
      [ [11; 12; 13; -100; -100]; [21; 22; 23; 24; 25]; [31; 32; -100; -100; -100] ] /\
    exists pad seqs,
      pad = 0 /\ map (@List.length Z) seqs = [3; 5; 2]%nat /\
      Forall (fun row => List.length row = 5%nat) (Batch.labels b) /\
      forall i s j, nth_error seqs i = Some s -> (j < 5)%nat ->
        at_ (Batch.labels b) i j =
          (if (j <? List.length s)%nat
           then (if nth j s 0 =? pad then -100 else nth j s 0)
           else -100).
Proof.
  eexists. split; [reflexivity|]. split; [reflexivity|].
  split; [reflexivity|]. split; [reflexivity|].
  destruct (collator_labels_mask_pad_token_id
              (Demo.collator 0)
              Demo.features_3_5_2 _ eq_refl)
    as [pad [seqs [Hpad [Hseqs H]]]].
  exists pad, seqs.
  assert (Es : seqs = [ [11; 12; 13]; [21; 22; 23; 24; 25]; [31; 32] ]).
  { inversion Hseqs as [|f1 s1 fs1 ss1 E1 H1]; subst.
    inversion H1 as [|f2 s2 fs2 ss2 E2 H2]; subst.
    inversion H2 as [|f3 s3 fs3 ss3 E3 H3]; subst.
    inversion H3; subst.
    vm_compute in E1, E2, E3. congruence. }
  subst seqs. simpl in Hpad. inversion Hpad; subst pad.
  split; [reflexivity|]. split; [reflexivity|].
  destruct H as [_ [_ [_ [Hl [_ Hat]]]]].
  split; [exact Hl|].
  intros i s j Hi Hj. exact (proj2 (Hat i s j Hi Hj)).
Defined.

(** C1 (as stated) fails: with a tokenizer that pads with its end-of-text
    token, the end-of-text token that really ends the first caption
    (row 0, position 2) is masked to -100 although it is not padding. *)
Lemma collator_masks_real_pad_valued_token :
  ~ labels_mask_exactly_padding
      (Demo.collator Demo.eos)
      Demo.features_eos.
Proof.
  intros H.
  specialize (H _ eq_refl 0%nat _ [464; 3290; Demo.eos] 2%nat eq_refl eq_refl).
  vm_compute in H. specialize (H (le_n _)). discriminate H.
Qed.

(* ===================================================================== *)
(** * The model dispatcher                                                *)
(* ===================================================================== *)

Lemma load_model_on (Model : Type) (env : Collaborators Model)
  (checkpoint : value) (config : PretrainedConfig) (a : string) (rest : list string) :
  architectures config = Some (a :: rest) ->
  a <> EmptyString ->
  load_model env checkpoint config =
  match find_model_class model_class_mapping a with
  | Some cls => loads_through env cls checkpoint a
  | None => warns_no_model a
  end.
Proof.
  intros Harch Ha. unfold load_model. rewrite Harch.
  cbn [truthy py_str].
  destruct (String.eqb_spec a EmptyString) as [E|_]; [contradiction|].
  cbn [negb].
  destruct (find_model_class model_class_mapping a) as [cls|].
  - unfold loads_through, logger_info.
    rewrite bind_emit.
    destruct (from_pretrained env cls checkpoint) as [e|m].
    + reflexivity.
    + rewrite bind_lift_inr, bind_emit. reflexivity.
  - unfold warns_no_model, logger_warning. rewrite bind_emit. reflexivity.
Qed.

(** C2 (amended). For a configuration whose architectures list is
    non-empty and whose first name is not the empty string, the dispatcher
    selects the loader by substring match on that first name, first match
    winning: a name containing "GitForCausalLM" goes to the causal-LM
    loader, otherwise one containing "BlipForConditionalGeneration" or
    "VisionEncoderDecoderModel" goes to the vision-to-sequence loader, and
    a name containing no fragment gets one warning and [None]. *)
Theorem load_model_dispatches_on_first_name (Model : Type)
  (env : Collaborators Model) (checkpoint : value) (config : PretrainedConfig)
  (a : string) (rest : list string) :
  architectures config = Some (a :: rest) ->
  a <> EmptyString ->
  dispatches_on env checkpoint config a.
Proof.
  intros Harch Ha. unfold dispatches_on.
  rewrite (load_model_on _ env checkpoint config a rest Harch Ha).
  cbn [find_model_class model_class_mapping].
  repeat split.
  - intros ->. reflexivity.
  - intros -> Hor.
    destruct (str_contains "BlipForConditionalGeneration" a); [reflexivity|].
    simpl in Hor. rewrite Hor. reflexivity.
  - intros -> -> ->. reflexivity.
Qed.

(** The four configurations the specification names. *)
Lemma load_model_dispatches_on_first_name_witness :
  load_model Demo.env (VStr "ckpt") {| architectures := Some ["GitForCausalLM"] |}
  = ([ ModelFromPretrained AutoModelForCausalLM (VStr "ckpt");
       Log INFO "Loaded model with architecture GitForCausalLM using AutoModelForCausalLM" ],
     inr (Some (AutoModelForCausalLM, VStr "ckpt")))
  /\ outcome (load_model Demo.env (VStr "ckpt")
                {| architectures := Some ["BlipForConditionalGeneration"] |})
     = inr (Some (AutoModelForVision2Seq, VStr "ckpt"))
  /\ outcome (load_model Demo.env (VStr "ckpt")
                {| architectures := Some ["VisionEncoderDecoderModel"] |})
     = inr (Some (AutoModelForVision2Seq, VStr "ckpt"))
  /\ load_model Demo.env (VStr "ckpt") {| architectures := Some ["SomeUnknownArch"] |}
     = ([Log WARNING "Unknown architecture SomeUnknownArch."], inr None).
Proof.
  assert (Hne : forall c s, String c s <> EmptyString) by (intros; discriminate).
  split; [|split; [|split]].
  - apply (load_model_dispatches_on_first_name _ Demo.env (VStr "ckpt")
             {| architectures := Some ["GitForCausalLM"] |} _ [] eq_refl (Hne _ _)).
    reflexivity.
  - rewrite (proj1 (proj2 (load_model_dispatches_on_first_name _ Demo.env (VStr "ckpt")
             {| architectures := Some ["BlipForConditionalGeneration"] |} _ []
             eq_refl (Hne _ _))) eq_refl eq_refl).
    reflexivity.
  - rewrite (proj1 (proj2 (load_model_dispatches_on_first_name _ Demo.env (VStr "ckpt")
             {| architectures := Some ["VisionEncoderDecoderModel"] |} _ []
             eq_refl (Hne _ _))) eq_refl eq_refl).
    reflexivity.
  - apply (load_model_dispatches_on_first_name _ Demo.env (VStr "ckpt")
             {| architectures := Some ["SomeUnknownArch"] |} _ [] eq_refl (Hne _ _));
      reflexivity.
Defined.

(** C2 (as stated) fails: a non-empty list whose first name is the empty
    string matches no fragment, yet the dispatcher raises instead of
    warning and returning [None]. *)
Lemma load_model_raises_on_empty_first_name :
  ~ dispatches_on_first_architecture Demo.env (VStr "ckpt")
      {| architectures := Some [EmptyString] |}.
Proof.
  intros H.
  destruct (H EmptyString [] eq_refl) as [_ [_ H3]].
  specialize (H3 eq_refl eq_refl eq_refl). discriminate H3.
Qed.

(** C6. A configuration whose architectures field is absent or empty makes
    the dispatcher raise a [ValueError] at once: nothing is logged, no
    loader is called, no model is returned, and no code sequenced after
    the call runs. *)
Theorem load_model_rejects_missing_architectures (Model : Type)
  (env : Collaborators Model) (checkpoint : value) (config : PretrainedConfig) :
  architectures config = None \/ architectures config = Some [] ->
  load_model env checkpoint config =
    ([], inl (ValueError ("No architecture found in config for "
                          ++ py_str checkpoint))) /\
  (forall m, outcome (load_model env checkpoint config) <> inr m) /\
  (forall (B : Type) (k : option Model -> py B),
     bind (load_model env checkpoint config) k =
     ([], inl (ValueError ("No architecture found in config for "
                           ++ py_str checkpoint)))).
Proof.
  intros H.
  assert (E : load_model env checkpoint config =
              ([], inl (ValueError ("No architecture found in config for "
                                    ++ py_str checkpoint)))).
  { unfold load_model. destruct H as [-> | ->]; reflexivity. }
  rewrite E. split; [reflexivity|]. split; [discriminate | reflexivity].
Qed.

Lemma load_model_rejects_missing_architectures_witness :
  load_model Demo.env (VStr "microsoft/git-base") {| architectures := Some [] |} =
  ([], inl (ValueError "No architecture found in config for microsoft/git-base"))
  /\
  load_model Demo.env (VStr "microsoft/git-base") {| architectures := None |} =
  ([], inl (ValueError "No architecture found in config for microsoft/git-base")).
Proof.
  split.
  - apply (load_model_rejects_missing_architectures _ Demo.env
             (VStr "microsoft/git-base") {| architectures := Some [] |}).
    right. reflexivity.
  - apply (load_model_rejects_missing_architectures _ Demo.env
             (VStr "microsoft/git-base") {| architectures := None |}).
    left. reflexivity.
Defined.

(* ===================================================================== *)
(** * Dataset preparation                                                 *)
(* ===================================================================== *)

Lemma getattr_field (d : DataTrainingArguments) (name : string) (v : value) :
  dict_get name (DataTrainingArguments_asdict d) = Some v ->
  getattr d name = ret v.
Proof. unfold getattr. intros ->. reflexivity. Qed.

Lemma prefix_app (s t : string) : String.prefix s (s ++ t) = true.
Proof.
  induction s as [|c s IH]; simpl; [now destruct t|].
  destruct (ascii_dec c c); [exact IH | congruence].
Qed.

Lemma prefix_refl (s : string) : String.prefix s s = true.
Proof.
  induction s as [|c s IH]; simpl; [reflexivity|].
  destruct (ascii_dec c c); [exact IH | congruence].
Qed.

Lemma str_contains_prefix (sub s : string) :
  String.prefix sub s = true -> str_contains sub s = true.
Proof. intros H. destruct s; simpl in *; rewrite H; reflexivity. Qed.

Lemma str_contains_cons (sub : string) (c : ascii) (s : string) :
  str_contains sub (String c s) =
  if String.prefix sub (String c s) then true else str_contains sub s.
Proof. reflexivity. Qed.

Lemma str_contains_app_l (sub p s : string) :
  str_contains sub s = true -> str_contains sub (p ++ s) = true.
Proof.
  intros H. induction p as [|c p IH]; [exact H|].
  change (String c p ++ s) with (String c (p ++ s)).
  rewrite str_contains_cons, IH.
  now destruct (String.prefix sub (String c (p ++ s))).
Qed.

Lemma subscript_trace {V} (d : dict V) (k : string) : trace (subscript d k) = [].
Proof. unfold subscript. destruct (dict_get k d); reflexivity. Qed.

Lemma subscript_value_trace (d : dict value) (k : value) :
  trace (subscript_value d k) = [].
Proof. destruct k; simpl; try reflexivity. apply subscript_trace. Qed.

Lemma encode_trace (image_processor : ImageProcessor) (tokenizer : Tokenizer)
  (im : PIL_Image) (text : string) :
  trace (encode image_processor tokenizer im text) = [].
Proof.
  unfold encode.
  destruct (image_processor im) as [e|image_input]; [reflexivity|].
  rewrite bind_lift_inr.
  destruct (tokenizer_call tokenizer text) as [e|text_input]; [reflexivity|].
  rewrite bind_lift_inr.
  unfold subscript.
  destruct (dict_get "pixel_values" image_input); [|reflexivity].
  rewrite bind_ret_l.
  destruct (dict_get "input_ids" text_input); [|reflexivity].
  rewrite bind_ret_l.
  destruct (dict_get "attention_mask" text_input); reflexivity.
Qed.

(** The prelude of [prepare_dataset]: reading the two cells. *)
Lemma prepare_dataset_on_url (Model : Type) (env : Collaborators Model)
  (data_args : DataTrainingArguments) (image_processor : ImageProcessor)
  (tokenizer : Tokenizer) (sample : dict value) (ic tc url : string) (tv : value) :
  image_column_name data_args = Some ic ->
  text_column_name data_args = Some tc ->
  dict_get ic sample = Some (VStr url) ->
  dict_get tc sample = Some tv ->
  prepare_dataset env data_args image_processor tokenizer sample =
  try_except
    (emit (HttpGet (VStr url) (VInt (requests_timeout data_args))) ;;;
     response <- lift (requests_get env (VStr url) (VInt (requests_timeout data_args))) ;;
     raise_for_status response ;;;
     img <- lift (Image_open env (content response)) ;;
     match img with
     | None =>
         logger_warning ("Invalid image from URL " ++ url ++ ", skipping sample.") ;;;
         ret null_sample
     | Some im => encode image_processor tokenizer im (py_str tv)
     end)
    is_RequestException_or_IOError
    (fun _ =>
       logger_warning ("Skipping sample due to error fetching URL " ++ url) ;;;
       ret null_sample).
Proof.
  intros Hic Htc Himg Htxt. unfold prepare_dataset.
  rewrite (getattr_field data_args "image_column_name" (VStr ic))
    by (simpl; now rewrite Hic).
  rewrite bind_ret_l. cbn [subscript_value].
  rewrite (subscript_get _ _ _ Himg), bind_ret_l.
  rewrite (getattr_field data_args "text_column_name" (VStr tc))
    by (simpl; now rewrite Htc).
  rewrite bind_ret_l. cbn [subscript_value].
  rewrite (subscript_get _ _ _ Htxt), bind_ret_l.
  rewrite (getattr_field data_args "requests_timeout"
             (VInt (requests_timeout data_args))) by reflexivity.
  rewrite bind_ret_l. reflexivity.
Qed.

Lemma raise_for_status_error (r : Response) :
  error_status (status_code r) ->
  exists m, raise_for_status r = raise (RequestException m).
Proof.
  unfold error_status, raise_for_status. intros [H1 H2].
  destruct (Z.leb_spec 400 (status_code r)); [|lia].
  destruct (Z.ltb_spec (status_code r) 600); [|lia].
  simpl. eauto.
Qed.

(** C3 (amended). When the image of a sample is a URL and the request
    fails with a network error, or answers with a client or server error
    status (400 to 599), or the fetched bytes cannot be decoded as an
    image, [prepare_dataset] raises nothing: after its one request it logs
    exactly one warning, which names the URL, and returns the sample with
    [pixel_values], [input_ids] and [attention_mask] all null. *)
Theorem prepare_dataset_drops_unfetchable (Model : Type)
  (env : Collaborators Model) (data_args : DataTrainingArguments)
  (image_processor : ImageProcessor) (tokenizer : Tokenizer)
  (sample : dict value) (ic tc url : string) (tv : value) :
  image_column_name data_args = Some ic ->
  text_column_name data_args = Some tc ->
  dict_get ic sample = Some (VStr url) ->
  dict_get tc sample = Some tv ->
  fetch_fails error_status env (VStr url) (VInt (requests_timeout data_args)) ->
  drops_with_one_warning url (VInt (requests_timeout data_args))
    (prepare_dataset env data_args image_processor tokenizer sample).
Proof.
  intros Hic Htc Himg Htxt Hfail.
  rewrite (prepare_dataset_on_url _ env data_args image_processor tokenizer
             sample ic tc url tv Hic Htc Himg Htxt).
  unfold drops_with_one_warning.
  assert (Hskip : str_contains url ("Skipping sample due to error fetching URL " ++ url)
                  = true)
    by (apply str_contains_app_l, str_contains_prefix, prefix_refl).
  rewrite bind_emit.
  destruct Hfail as [[m Hget] | [[r [Hget Hbad]] | [r [Hget Hund]]]].
  - rewrite Hget. eexists. split; [reflexivity | exact Hskip].
  - rewrite Hget, bind_lift_inr.
    destruct (raise_for_status_error r Hbad) as [m ->].
    eexists. split; [reflexivity | exact Hskip].
  - rewrite Hget, bind_lift_inr.
    unfold raise_for_status.
    destruct ((400 <=? status_code r) && (status_code r <? 600)).
    + eexists. split; [reflexivity | exact Hskip].
    + rewrite bind_ret_l.
      destruct Hund as [[m ->] | ->].
      * eexists. split; [reflexivity | exact Hskip].
      * eexists. split; [reflexivity|].
        apply str_contains_app_l, str_contains_prefix, prefix_app.
Qed.

(** A 404, a payload that is not an image, and an unreachable host. *)
Lemma prepare_dataset_drops_unfetchable_witness :
  prepare_dataset Demo.env (Demo.data_args None) Demo.image_processor
    (Demo.tokenizer 0) (Demo.row "http://img/gone") =
  ([ HttpGet (VStr "http://img/gone") (VInt 1);
     Log WARNING "Skipping sample due to error fetching URL http://img/gone" ],
   inr null_sample)
  /\ drops_with_one_warning "http://img/text" (VInt 1)
       (prepare_dataset Demo.env (Demo.data_args None) Demo.image_processor
          (Demo.tokenizer 0) (Demo.row "http://img/text"))
  /\ drops_with_one_warning "http://img/down" (VInt 1)
       (prepare_dataset Demo.env (Demo.data_args None) Demo.image_processor
          (Demo.tokenizer 0) (Demo.row "http://img/down")).
Proof.
  split; [|split].
  - destruct (prepare_dataset_drops_unfetchable _ Demo.env (Demo.data_args None)
                Demo.image_processor (Demo.tokenizer 0) (Demo.row "http://img/gone")
                "image" "text" "http://img/gone" (VStr "hi")
                eq_refl eq_refl eq_refl eq_refl) as [msg [E _]].
    + right. left. eexists. split; [reflexivity|]. unfold error_status. simpl. lia.
    + reflexivity.
  - apply (prepare_dataset_drops_unfetchable _ Demo.env (Demo.data_args None)
             Demo.image_processor (Demo.tokenizer 0) (Demo.row "http://img/text")
             "image" "text" "http://img/text" (VStr "hi")
             eq_refl eq_refl eq_refl eq_refl).
    right. right. eexists. split; [reflexivity|]. left. eexists. reflexivity.
  - apply (prepare_dataset_drops_unfetchable _ Demo.env (Demo.data_args None)
             Demo.image_processor (Demo.tokenizer 0) (Demo.row "http://img/down")
             "image" "text" "http://img/down" (VStr "hi")
             eq_refl eq_refl eq_refl eq_refl).
    left. eexists. reflexivity.
Defined.

(** C3 (as stated) fails: a response with status 300, which is not a
    success status, passes [raise_for_status]; its payload decodes, so the
    sample is encoded and no warning is logged. *)
Lemma prepare_dataset_keeps_non_error_status :
  ~ drops_unfetchable non_success_status Demo.env (Demo.data_args None)
      Demo.image_processor (Demo.tokenizer 0) (Demo.row "http://img/choices").
Proof.
  intros H.
  destruct (H "image" "text" "http://img/choices" (VStr "hi")
              eq_refl eq_refl eq_refl eq_refl) as [msg [E _]].
  - right. left. eexists. split; [reflexivity|].
    unfold non_success_status. simpl. lia.
  - vm_compute in E. discriminate E.
Qed.

(** C7. When the image of a sample is already a decoded in-memory image,
    [prepare_dataset] encodes it directly: it emits no event at all, hence
    performs no HTTP request, it is the same whatever the HTTP client and
    the image decoder are, and (the text cell being there) it is exactly
    the run of the two encoders. *)
Theorem prepare_dataset_in_memory_no_network (Model : Type)
  (env : Collaborators Model) (data_args : DataTrainingArguments)
  (image_processor : ImageProcessor) (tokenizer : Tokenizer)
  (sample : dict value) (ic : string) (im : PIL_Image) :
  image_column_name data_args = Some ic ->
  dict_get ic sample = Some (VImage im) ->
  Forall (fun ev => is_network_io ev = false)
         (trace (prepare_dataset env data_args image_processor tokenizer sample)) /\
  (forall env' : Collaborators Model,
     prepare_dataset env' data_args image_processor tokenizer sample =
     prepare_dataset env data_args image_processor tokenizer sample) /\
  (forall tc tv,
     text_column_name data_args = Some tc -> dict_get tc sample = Some tv ->
     prepare_dataset env data_args image_processor tokenizer sample =
     encode image_processor tokenizer im (py_str tv)).
Proof.
  intros Hic Himg.
  assert (E : forall env' : Collaborators Model,
             prepare_dataset env' data_args image_processor tokenizer sample =
             (tv <- subscript_value sample (of_str (text_column_name data_args)) ;;
              encode image_processor tokenizer im (py_str tv))).
  { intros env'. unfold prepare_dataset.
    rewrite (getattr_field data_args "image_column_name" (VStr ic))
      by (simpl; now rewrite Hic).
    rewrite bind_ret_l. cbn [subscript_value].
    rewrite (subscript_get _ _ _ Himg), bind_ret_l.
    rewrite (getattr_field data_args "text_column_name"
               (of_str (text_column_name data_args))) by reflexivity.
    rewrite bind_ret_l. reflexivity. }
  split; [|split].
  - rewrite E, trace_bind, subscript_value_trace.
    destruct (outcome (subscript_value sample (of_str (text_column_name data_args))));
      [constructor | rewrite encode_trace; constructor].
  - intros env'. now rewrite !E.
  - intros tc tv Htc Htxt. rewrite E, Htc. cbn [of_str subscript_value].
    now rewrite (subscript_get _ _ _ Htxt), bind_ret_l.
Qed.

Lemma prepare_dataset_in_memory_no_network_witness :
  prepare_dataset Demo.env (Demo.data_args None) Demo.image_processor
    (Demo.tokenizer 0) [ ("image", VImage Demo.dog); ("text", VStr "a dog") ] =
  ([], inr [ ("pixel_values",
              VTensor {| shape := [1; 1; 2]%nat; data := [10; 20] |});
             ("input_ids", VInts [97; 32; 100; 111; 103]);
             ("attention_mask", VInts [1; 1; 1; 1; 1]) ]).
Proof.
  rewrite (proj2 (proj2 (prepare_dataset_in_memory_no_network _ Demo.env
                           (Demo.data_args None) Demo.image_processor
                           (Demo.tokenizer 0)
                           [ ("image", VImage Demo.dog); ("text", VStr "a dog") ]
                           "image" Demo.dog eq_refl eq_refl))
             "text" (VStr "a dog") eq_refl eq_refl).
  reflexivity.
Defined.

(* --------------------------------------------------------------------- *)
(** ** Map, then filter                                                   *)
(* --------------------------------------------------------------------- *)

Lemma all_fields_not_None_trace (x : dict value) :
  trace (all_fields_not_None x) = [].
Proof.
  unfold all_fields_not_None, subscript.
  destruct (dict_get "pixel_values" x) as [pv|]; [|reflexivity].
  rewrite bind_ret_l. destruct (is_not_None pv); [|reflexivity]. cbn [negb].
  destruct (dict_get "input_ids" x) as [ii|]; [|reflexivity].
  rewrite bind_ret_l. destruct (is_not_None ii); [|reflexivity]. cbn [negb].
  destruct (dict_get "attention_mask" x) as [am|]; reflexivity.
Qed.

Lemma is_not_None_true (v : value) : is_not_None v = true <-> v <> VNone.
Proof. destruct v; simpl; split; congruence. Qed.

(** The filter predicate answers [True] exactly on the usable samples. *)
Lemma all_fields_not_None_true (x : dict value) :
  outcome (all_fields_not_None x) = inr true <-> usable x.
Proof.
  unfold all_fields_not_None, subscript, usable. split.
  - destruct (dict_get "pixel_values" x) as [pv|]; [|discriminate].
    rewrite bind_ret_l. destruct (is_not_None pv) eqn:Epv; [|discriminate].
    cbn [negb].
    destruct (dict_get "input_ids" x) as [ii|]; [|discriminate].
    rewrite bind_ret_l. destruct (is_not_None ii) eqn:Eii; [|discriminate].
    cbn [negb].
    destruct (dict_get "attention_mask" x) as [am|]; [|discriminate].
    rewrite bind_ret_l. simpl. intros H.
    exists pv, ii, am. rewrite <- !is_not_None_true.
    repeat split; congruence.
  - intros [pv [ii [am [-> [Hpv [-> [Hii [-> Ham]]]]]]]].
    apply is_not_None_true in Hpv, Hii, Ham.
    rewrite bind_ret_l, Hpv. cbn [negb]. rewrite bind_ret_l, Hii. cbn [negb].
    rewrite bind_ret_l. simpl. now rewrite Ham.
Qed.

Lemma all_fields_not_None_usable (x : dict value) :
  usable x -> all_fields_not_None x = ret true.
Proof.
  intros H. rewrite (pair_eta (all_fields_not_None x)).
  rewrite all_fields_not_None_trace.
  apply all_fields_not_None_true in H. now rewrite H.
Qed.

(** A filter keeps only rows on which its predicate answered [True]. *)
Lemma Dataset_filter_kept (p : dict value -> py bool) (rs out : list (dict value)) :
  outcome (Dataset_filter p rs) = inr out ->
  Forall (fun r => outcome (p r) = inr true) out /\ incl out rs.
Proof.
  revert out. induction rs as [|r rs IH]; intros out H.
  - inversion H. split; [constructor | apply incl_refl].
  - cbn [Dataset_filter] in H.
    apply bind_inr_inv in H. destruct H as [keep [Hkeep H]].
    apply bind_inr_inv in H. destruct H as [kept [Hkept H]].
    destruct (IH _ Hkept) as [IH1 IH2].
    simpl in H. inversion H; subst out; clear H.
    destruct keep.
    + split; [constructor; assumption|].
      intros y [<-|Hy]; [now left | right; now apply IH2].
    + split; [assumption|]. intros y Hy. right. now apply IH2.
Qed.

(** Filtering rows that all pass changes nothing and emits nothing. *)
Lemma Dataset_filter_fixed (p : dict value -> py bool) (rs : list (dict value)) :
  Forall (fun r => p r = ret true) rs -> Dataset_filter p rs = ret rs.
Proof.
  induction 1 as [|r rs Hr _ IH]; [reflexivity|].
  cbn [Dataset_filter]. now rewrite Hr, bind_ret_l, IH, !bind_ret_l.
Qed.

(** C4. Whatever the per-row transform, the dataset [process_dataset]
    returns holds no sample with a null [pixel_values], [input_ids] or
    [attention_mask], every row of it is one of the mapped rows, and
    running the same filter over it again returns it unchanged. *)
Theorem process_dataset_keeps_usable_only
  (prepare : dict value -> py (dict value)) (remove_columns : list string)
  (dataset : Dataset) (out : list (dict value)) :
  outcome (process_dataset prepare remove_columns dataset) = inr out ->
  Forall usable out /\
  (forall x, In x out ->
     dict_get "pixel_values" x <> Some VNone /\
     dict_get "input_ids" x <> Some VNone /\
     dict_get "attention_mask" x <> Some VNone) /\
  Dataset_filter all_fields_not_None out = ret out.
Proof.
  unfold process_dataset. intros H.
  apply bind_inr_inv in H. destruct H as [PIL_dataset [_ H]].
  apply Dataset_filter_kept in H. destruct H as [H _].
  assert (Hus : Forall usable out).
  { eapply Forall_impl; [|exact H]. intros x. apply all_fields_not_None_true. }
  split; [exact Hus|]. split.
  - intros x Hx. rewrite Forall_forall in Hus.
    destruct (Hus x Hx) as [pv [ii [am [E1 [H1 [E2 [H2 [E3 H3]]]]]]]].
    rewrite E1, E2, E3. repeat split; congruence.
  - apply Dataset_filter_fixed.
    eapply Forall_impl; [|exact Hus]. intros x. apply all_fields_not_None_usable.
Qed.

(** The three-row dataset: the in-memory image and the reachable URL give
    two encoded rows, the unreachable URL is dropped. *)
Lemma process_dataset_keeps_usable_only_witness :
  exists out,
    outcome (process_dataset
               (prepare_dataset Demo.env (Demo.data_args None)
                  Demo.image_processor (Demo.tokenizer 0))
               ["image"; "text"] Demo.captions) = inr out /\
    List.length out = 2%nat /\
    Forall usable out /\
    Dataset_filter all_fields_not_None out = ret out.
Proof.
  eexists. split; [reflexivity|]. split; [reflexivity|].
  destruct (process_dataset_keeps_usable_only
              (prepare_dataset Demo.env (Demo.data_args None)
                 Demo.image_processor (Demo.tokenizer 0))
              ["image"; "text"] Demo.captions _ eq_refl) as [H1 [_ H3]].
  split; [exact H1 | exact H3].
Defined.

(* --------------------------------------------------------------------- *)
(** ** [process_dataset] returns when the per-row transform does          *)
(* --------------------------------------------------------------------- *)








(* ===================================================================== *)
(** * Loading the splits and checking the columns                         *)
(* ===================================================================== *)

(** The attributes of the data arguments are the declared fields. *)
Lemma DataTrainingArguments_keys (d : DataTrainingArguments) :
  keys (DataTrainingArguments_asdict d) = DataTrainingArguments_fields.
Proof. reflexivity. Qed.

Lemma dict_get_absent {V} (d : dict V) (k : string) :
  existsb (String.eqb k) (keys d) = false -> dict_get k d = None.
Proof.
  induction d as [|[k' v] d IH]; simpl; [reflexivity|].
  destruct (String.eqb k k'); simpl; [discriminate | exact IH].
Qed.

(** Reading an attribute that is not a declared field raises. *)
Lemma getattr_undeclared (d : DataTrainingArguments) (name : string) :
  existsb (String.eqb name) DataTrainingArguments_fields = false ->
  getattr d name = raise (AttributeError name).
Proof.
  intros H. unfold getattr.
  rewrite dict_get_absent; [reflexivity|].
  now rewrite DataTrainingArguments_keys.
Qed.

(** Step 3 up to the choice between loading and splitting. *)
Lemma load_raw_datasets_after_train (Model : Type) (env : Collaborators Model)
  (model_args : ModelArguments) (data_args : DataTrainingArguments)
  (training_args : ImageCapTrainingArguments) (d : Dataset) :
  do_train training_args = true ->
  train_load env model_args data_args = inr d ->
  load_raw_datasets env model_args data_args training_args =
  (emit (train_load_event model_args data_args) ;;;
   if do_eval training_args && is_not_None (of_str (eval_split_name data_args))
   then
     path <- getattr data_args "dataset_name_or_path" ;;
     name <- getattr data_args "dataset_subset_name" ;;
     split <- getattr data_args "eval_split_name" ;;
     emit (LoadDataset path name split (cache_dir model_args)) ;;;
     v <- lift (load_dataset env path name split (cache_dir model_args)) ;;
     ret (dict_set "validation" v [("train", d)])
   else
     if negb (truthy (of_str (eval_split_name data_args))) then
       emit (TrainTestSplit test_size) ;;;
       new_dataset <- lift (train_test_split env d test_size) ;;
       new_train <- subscript new_dataset "train" ;;
       new_test <- subscript new_dataset "test" ;;
       ret [("train", new_train); ("validation", new_test)]
     else ret [("train", d)]).
Proof.
  intros Htrain Hload. unfold load_raw_datasets, train_load in *.
  rewrite Htrain.
  rewrite (getattr_field data_args "dataset_name" (of_str (dataset_name data_args)))
    by reflexivity.
  rewrite bind_ret_l.
  rewrite (getattr_field data_args "dataset_config_name"
             (of_str (dataset_config_name data_args))) by reflexivity.
  rewrite bind_ret_l.
  rewrite (getattr_field data_args "train_split_name"
             (of_str (train_split_name data_args))) by reflexivity.
  rewrite bind_ret_l.
  rewrite Hload.
  rewrite bind_assoc. unfold train_load_event. apply emit_bind_congr.
  cbv beta. rewrite bind_lift_inr, !bind_ret_l.
  destruct (do_eval training_args); cbn [andb].
  - rewrite (getattr_field data_args "eval_split_name"
               (of_str (eval_split_name data_args))) by reflexivity.
    rewrite !bind_ret_l.
    destruct (is_not_None (of_str (eval_split_name data_args))); [reflexivity|].
    destruct (negb (truthy (of_str (eval_split_name data_args)))); [|reflexivity].
    change (subscript (dict_set "train" d []) "train") with (ret d).
    rewrite bind_ret_l. reflexivity.
  - rewrite bind_ret_l.
    rewrite (getattr_field data_args "eval_split_name"
               (of_str (eval_split_name data_args))) by reflexivity.
    rewrite bind_ret_l.
    destruct (negb (truthy (of_str (eval_split_name data_args)))); [|reflexivity].
    change (subscript (dict_set "train" d []) "train") with (ret d).
    rewrite bind_ret_l. reflexivity.
Qed.

(** Step 3 when evaluation is requested and [eval_split_name] is set: the
    evaluation branch stops at its first attribute read. *)
Lemma load_raw_datasets_eval_branch (Model : Type) (env : Collaborators Model)
  (model_args : ModelArguments) (data_args : DataTrainingArguments)
  (training_args : ImageCapTrainingArguments) (s : string) :
  do_eval training_args = true ->
  eval_split_name data_args = Some s ->
  load_raw_datasets env model_args data_args training_args =
  if do_train training_args then
    match train_load env model_args data_args with
    | inl e => ([train_load_event model_args data_args], inl e)
    | inr _ => ([train_load_event model_args data_args],
                inl (AttributeError "dataset_name_or_path"))
    end
  else ([], inl (AttributeError "dataset_name_or_path")).
Proof.
  intros Hev Hesn. unfold load_raw_datasets, train_load, train_load_event.
  rewrite Hev.
  rewrite (getattr_field data_args "eval_split_name" (VStr s))
    by (simpl; now rewrite Hesn).
  rewrite (getattr_undeclared data_args "dataset_name_or_path") by reflexivity.
  destruct (do_train training_args); [|reflexivity].
  rewrite (getattr_field data_args "dataset_name" (of_str (dataset_name data_args)))
    by reflexivity.
  rewrite (getattr_field data_args "dataset_config_name"
             (of_str (dataset_config_name data_args))) by reflexivity.
  rewrite (getattr_field data_args "train_split_name"
             (of_str (train_split_name data_args))) by reflexivity.
  rewrite !bind_ret_l.
  destruct (load_dataset env (of_str (dataset_name data_args))
              (of_str (dataset_config_name data_args))
              (of_str (train_split_name data_args)) (cache_dir model_args));
    reflexivity.
Qed.

(** C9. The evaluation-split branch reads [dataset_name_or_path] and
    [dataset_subset_name], which are not fields of the data arguments (the
    declared ones are [dataset_name] and [dataset_config_name]); reading
    either raises [AttributeError].  Hence every run with [do_eval] set and
    [eval_split_name] not [None] never gets past step 3, and whenever the
    branch is reached (nothing failed before it) the run ends in the
    [AttributeError] of the first read. *)
Theorem eval_split_branch_reads_undeclared_fields (Model : Type)
  (env : Collaborators Model) (model_args : ModelArguments)
  (data_args : DataTrainingArguments) (training_args : ImageCapTrainingArguments)
  (s : string) :
  do_eval training_args = true ->
  eval_split_name data_args = Some s ->
  (In "dataset_name" DataTrainingArguments_fields /\
   In "dataset_config_name" DataTrainingArguments_fields /\
   ~ In "dataset_name_or_path" DataTrainingArguments_fields /\
   ~ In "dataset_subset_name" DataTrainingArguments_fields) /\
  getattr data_args "dataset_name_or_path" =
    raise (AttributeError "dataset_name_or_path") /\
  getattr data_args "dataset_subset_name" =
    raise (AttributeError "dataset_subset_name") /\
  (forall raw_datasets,
     outcome (load_raw_datasets env model_args data_args training_args)
     <> inr raw_datasets) /\
  (forall result,
     outcome (main env model_args data_args training_args) <> inr result) /\
  (do_train training_args = false \/
   (exists d, train_load env model_args data_args = inr d) ->
   outcome (load_raw_datasets env model_args data_args training_args)
   = inl (AttributeError "dataset_name_or_path") /\
   outcome (main env model_args data_args training_args)
   = inl (AttributeError "dataset_name_or_path")).
Proof.
  intros Hev Hesn.
  pose proof (load_raw_datasets_eval_branch _ env model_args data_args
                training_args s Hev Hesn) as E.
  assert (Hraises : exists e,
             outcome (load_raw_datasets env model_args data_args training_args)
             = inl e).
  { rewrite E. destruct (do_train training_args); [|eexists; reflexivity].
    destruct (train_load env model_args data_args); eexists; reflexivity. }
  destruct Hraises as [e He].
  split; [|split; [|split; [|split; [|split]]]].
  - unfold DataTrainingArguments_fields. simpl. repeat split.
    + tauto.
    + tauto.
    + intros H. repeat destruct H as [H|H]; try discriminate H; exact H.
    + intros H. repeat destruct H as [H|H]; try discriminate H; exact H.
  - now apply getattr_undeclared.
  - now apply getattr_undeclared.
  - intros raw. rewrite He. discriminate.
  - intros result. unfold main. rewrite (outcome_bind_inl _ _ _ He). discriminate.
  - intros Hreach.
    assert (He' : outcome (load_raw_datasets env model_args data_args training_args)
                  = inl (AttributeError "dataset_name_or_path")).
    { rewrite E. destruct Hreach as [-> | [d ->]]; [reflexivity|].
      destruct (do_train training_args); reflexivity. }
    split; [exact He'|]. unfold main. now apply outcome_bind_inl.
Qed.

Lemma eval_split_branch_reads_undeclared_fields_witness :
  main Demo.env Demo.model_args (Demo.data_args (Some "validation"))
    Demo.train_and_eval =
  ([LoadDataset (VStr "captions") VNone (VStr "train") VNone],
   inl (AttributeError "dataset_name_or_path")).
Proof.
  destruct (eval_split_branch_reads_undeclared_fields _ Demo.env Demo.model_args
              (Demo.data_args (Some "validation")) Demo.train_and_eval
              "validation" eq_refl eq_refl) as [_ [_ [_ [_ [_ H]]]]].
  destruct (H (or_intror (ex_intro _ Demo.captions eq_refl))) as [_ Hmain].
  rewrite (pair_eta (main _ _ _ _)), Hmain.
  reflexivity.
Defined.

(** C10 (amended). When [eval_split_name] is [None], whether or not
    evaluation is requested, or is the empty string and evaluation is not
    requested, the loaded training split is partitioned by
    [train_test_split(test_size=0.15)]: its train part becomes the
    training set, its held-out test part becomes the validation set, and
    no second split is loaded. *)
Theorem load_raw_datasets_holds_out_validation (Model : Type)
  (env : Collaborators Model) (model_args : ModelArguments)
  (data_args : DataTrainingArguments) (training_args : ImageCapTrainingArguments) :
  eval_split_name data_args = None \/
  (eval_split_name data_args = Some EmptyString /\ do_eval training_args = false) ->
  splits_training_set env model_args data_args training_args.
Proof.
  intros Hunset d new_dataset new_train new_test Htrain Hload Hsplit Hnt Hne.
  rewrite (load_raw_datasets_after_train _ env model_args data_args training_args
             d Htrain Hload).
  assert (Hbranch : do_eval training_args
                    && is_not_None (of_str (eval_split_name data_args)) = false).
  { destruct Hunset as [-> | [_ ->]]; [apply andb_false_r | reflexivity]. }
  assert (Hfalsy : negb (truthy (of_str (eval_split_name data_args))) = true).
  { destruct Hunset as [-> | [-> _]]; reflexivity. }
  rewrite Hbranch, Hfalsy, Hsplit, bind_lift_inr.
  rewrite (subscript_get _ _ _ Hnt), (subscript_get _ _ _ Hne), !bind_ret_l.
  reflexivity.
Qed.

(** Three rows: two stay in the training set, one is held out. *)
Lemma load_raw_datasets_holds_out_validation_witness :
  exists new_train new_test,
    load_raw_datasets Demo.env Demo.model_args (Demo.data_args None)
      Demo.train_and_eval =
    ([ LoadDataset (VStr "captions") VNone (VStr "train") VNone;
       TrainTestSplit (15 # 100) ],
     inr [("train", new_train); ("validation", new_test)]) /\
    List.length (rows new_train) = 2%nat /\ List.length (rows new_test) = 1%nat.
Proof.
  eexists. eexists. split.
  - eapply (load_raw_datasets_holds_out_validation _ Demo.env Demo.model_args
              (Demo.data_args None) Demo.train_and_eval (or_introl eq_refl)
              Demo.captions); reflexivity.
  - split; reflexivity.
Defined.

(** C10 (as stated) fails: with [eval_split_name] the empty string and
    evaluation requested, the evaluation branch is taken ([is not None]
    holds of the empty string) and the training set is not split. *)
Lemma empty_eval_split_name_is_not_split :
  ~ held_out_split_when_unset Demo.env Demo.model_args
      (Demo.data_args (Some EmptyString)) Demo.train_and_eval.
Proof.
  intros H.
  assert (Hunset : eval_split_unset (Demo.data_args (Some EmptyString)))
    by (right; reflexivity).
  specialize (H Hunset Demo.captions _ _ _ eq_refl eq_refl eq_refl eq_refl eq_refl).
  vm_compute in H. discriminate H.
Qed.

(* --------------------------------------------------------------------- *)
(** ** The column checks                                                  *)
(* --------------------------------------------------------------------- *)

Lemma check_columns_missing_image (data_args : DataTrainingArguments)
  (k : string) (first : Dataset) (rest : dict Dataset) :
  not_in_columns (of_str (image_column_name data_args)) (column_names first) = true ->
  check_columns data_args ((k, first) :: rest) =
  raise (ValueError ("Column " ++ py_str (of_str (image_column_name data_args))
                     ++ " not found in dataset.")).
Proof.
  intros H. unfold check_columns.
  rewrite (getattr_field data_args "image_column_name"
             (of_str (image_column_name data_args))) by reflexivity.
  rewrite bind_ret_l. cbn [next_iter_values values map snd].
  rewrite bind_ret_l, H. reflexivity.
Qed.

Lemma check_columns_missing_text (data_args : DataTrainingArguments)
  (k : string) (first : Dataset) (rest : dict Dataset) :
  not_in_columns (of_str (image_column_name data_args)) (column_names first) = false ->
  not_in_columns (of_str (text_column_name data_args)) (column_names first) = true ->
  check_columns data_args ((k, first) :: rest) =
  raise (ValueError ("Column " ++ py_str (of_str (text_column_name data_args))
                     ++ " not found in dataset.")).
Proof.
  intros Hi Ht. unfold check_columns.
  rewrite (getattr_field data_args "image_column_name"
             (of_str (image_column_name data_args))) by reflexivity.
  rewrite (getattr_field data_args "text_column_name"
             (of_str (text_column_name data_args))) by reflexivity.
  cbn [next_iter_values values map snd].
  rewrite !bind_ret_l, Hi, bind_ret_l, Ht. reflexivity.
Qed.

(** Step 3 calls the dataset library only. *)
Lemma load_raw_datasets_loads_no_model (Model : Type) (env : Collaborators Model)
  (model_args : ModelArguments) (data_args : DataTrainingArguments)
  (training_args : ImageCapTrainingArguments) :
  Forall (fun ev => is_model_or_processor_load ev = false)
         (trace (load_raw_datasets env model_args data_args training_args)).
Proof.
  unfold load_raw_datasets.
  rewrite (getattr_field data_args "dataset_name" (of_str (dataset_name data_args)))
    by reflexivity.
  rewrite (getattr_field data_args "dataset_config_name"
             (of_str (dataset_config_name data_args))) by reflexivity.
  rewrite (getattr_field data_args "train_split_name"
             (of_str (train_split_name data_args))) by reflexivity.
  rewrite (getattr_field data_args "eval_split_name"
             (of_str (eval_split_name data_args))) by reflexivity.
  rewrite (getattr_undeclared data_args "dataset_name_or_path") by reflexivity.
  destruct (do_train training_args), (do_eval training_args);
    rewrite ?bind_ret_l;
    try destruct (load_dataset env (of_str (dataset_name data_args))
                    (of_str (dataset_config_name data_args))
                    (of_str (train_split_name data_args)) (cache_dir model_args))
      as [e|d];
    destruct (eval_split_name data_args) as [[|c s]|];
    cbn -[test_size];
    repeat constructor.
  all: destruct (train_test_split env d test_size) as [e|new_dataset];
    cbn -[test_size]; repeat constructor.
  all: unfold subscript; destruct (dict_get "train" new_dataset);
    cbn -[test_size]; repeat constructor.
  all: destruct (dict_get "test" new_dataset); cbn -[test_size]; repeat constructor.
Qed.

(** X15. Where the run gets as far as the column checks, a configured
    column that the first loaded split lacks stops it with a [ValueError]
    naming that column, before any model, processor or tokenizer is
    loaded. *)
Lemma main_rejects_missing_column (Model : Type) (env : Collaborators Model)
  (model_args : ModelArguments) (data_args : DataTrainingArguments)
  (training_args : ImageCapTrainingArguments)
  (k : string) (first : Dataset) (rest : dict Dataset) :
  outcome (load_raw_datasets env model_args data_args training_args)
  = inr ((k, first) :: rest) ->
  not_in_columns (of_str (image_column_name data_args)) (column_names first) = true \/
  not_in_columns (of_str (text_column_name data_args)) (column_names first) = true ->
  exists column,
    (column = of_str (image_column_name data_args) \/
     column = of_str (text_column_name data_args)) /\
    not_in_columns column (column_names first) = true /\
    outcome (main env model_args data_args training_args)
    = inl (ValueError ("Column " ++ py_str column ++ " not found in dataset.")) /\
    Forall (fun ev => is_model_or_processor_load ev = false)
           (trace (main env model_args data_args training_args)).
Proof.
  intros Hraw Hmiss.
  pose proof (load_raw_datasets_loads_no_model _ env model_args data_args
                training_args) as Htrace.
  assert (Hcheck : exists column,
             (column = of_str (image_column_name data_args) \/
              column = of_str (text_column_name data_args)) /\
             not_in_columns column (column_names first) = true /\
             check_columns data_args ((k, first) :: rest) =
             raise (ValueError ("Column " ++ py_str column
                                ++ " not found in dataset."))).
  { destruct (not_in_columns (of_str (image_column_name data_args))
                (column_names first)) eqn:Ei.
    - eexists. split; [left; reflexivity|]. split; [exact Ei|].
      now apply check_columns_missing_image.
    - destruct Hmiss as [Hm|Hm]; [discriminate|].
      eexists. split; [right; reflexivity|]. split; [exact Hm|].
      now apply check_columns_missing_text. }
  destruct Hcheck as [column [Hcol [Hnot Hcheck]]].
  exists column. split; [exact Hcol|]. split; [exact Hnot|].
  unfold main.
  rewrite (pair_eta (load_raw_datasets env model_args data_args training_args)).
  rewrite Hraw, bind_pair, Hcheck. simpl. rewrite app_nil_r.
  split; [reflexivity | exact Htrace].
Qed.

Lemma main_rejects_missing_column_witness :
  exists column,
    column = VStr "picture" /\
    outcome (main Demo.env Demo.model_args (Demo.data_args_picture None)
               Demo.train_and_eval)
    = inl (ValueError ("Column " ++ py_str column ++ " not found in dataset.")) /\
    Forall (fun ev => is_model_or_processor_load ev = false)
           (trace (main Demo.env Demo.model_args (Demo.data_args_picture None)
                     Demo.train_and_eval)).
Proof.
  destruct (main_rejects_missing_column _ Demo.env Demo.model_args
              (Demo.data_args_picture None) Demo.train_and_eval
              "train" _ _ eq_refl (or_introl eq_refl))
    as [column [Hcol [_ [Hout Htrace]]]].
  exists column. split; [|split; [exact Hout | exact Htrace]].
  destruct Hcol as [-> | ->]; [reflexivity|].
  vm_compute in Hout. discriminate Hout.
Defined.

(** C8 (the run that escapes the check). With evaluation requested on a
    named split, [main] stops in the evaluation branch with an
    [AttributeError] and never reaches the column checks, although the
    configured image column is not a column of the loaded dataset; the
    same arguments without the named split are refused by the check. *)
Theorem main_eval_branch_precedes_column_check :
  main Demo.env Demo.model_args (Demo.data_args_picture (Some "validation"))
    Demo.train_and_eval =
  ([LoadDataset (VStr "captions") VNone (VStr "train") VNone],
   inl (AttributeError "dataset_name_or_path")) /\
  not_in_columns (VStr "picture") (column_names Demo.captions) = true /\
  main Demo.env Demo.model_args (Demo.data_args_picture None) Demo.train_and_eval =
  ([LoadDataset (VStr "captions") VNone (VStr "train") VNone;
    TrainTestSplit (15 # 100)],
   inl (ValueError "Column picture not found in dataset.")).
Proof.
  split; [|split].
  - vm_compute. reflexivity.
  - reflexivity.
  - vm_compute. reflexivity.
Qed.

(* ===================================================================== *)
(** * The collator returns on encoded batches                             *)
(* ===================================================================== *)

Lemma filter_none {A} (f : A -> bool) (l : list A) :
  (forall x, In x l -> f x = false) -> filter f l = [].
Proof.
  induction l as [|x l IH]; intros H; simpl; [reflexivity|].
  rewrite (H x (or_introl eq_refl)). apply IH. intros y Hy. apply H. now right.
Qed.

Lemma malformed_none (features : list (dict value)) :
  Forall (fun f => dict_has "input_ids" f = true) features ->
  malformed features = [].
Proof.
  intros H. unfold malformed. apply filter_none. intros [i f] Hin.
  apply in_enumerate, nth_error_In in Hin. rewrite Forall_forall in H.
  simpl. now rewrite (H f Hin).
Qed.



(* ===================================================================== *)
(** * Every prepared sample carries the three fields                      *)
(* ===================================================================== *)

Lemma try_except_inr_inv {A} (c : py A) (catches : exn -> bool)
  (h : exn -> py A) (a : A) :
  outcome (try_except c catches h) = inr a ->
  outcome c = inr a \/ exists e, outcome c = inl e /\ outcome (h e) = inr a.
Proof.
  destruct c as [t [e|a']]; simpl.
  - destruct (catches e); [|discriminate].
    destruct (h e) as [t' r] eqn:Eh. simpl. intros ->.
    right. exists e. rewrite Eh. split; reflexivity.
  - intros H. now left.
Qed.

Lemma encode_keys (image_processor : ImageProcessor) (tokenizer : Tokenizer)
  (im : PIL_Image) (text : string) (x : dict value) :
  outcome (encode image_processor tokenizer im text) = inr x ->
  keys x = ["pixel_values"; "input_ids"; "attention_mask"].
Proof.
  unfold encode. intros H.
  apply bind_inr_inv in H. destruct H as [image_input [_ H]].
  apply bind_inr_inv in H. destruct H as [text_input [_ H]].
  apply bind_inr_inv in H. destruct H as [pv [_ H]].
  apply bind_inr_inv in H. destruct H as [ii [_ H]].
  apply bind_inr_inv in H. destruct H as [am [_ H]].
  inversion H. reflexivity.
Qed.

Lemma prepare_dataset_keys (Model : Type) (env : Collaborators Model)
  (data_args : DataTrainingArguments) (image_processor : ImageProcessor)
  (tokenizer : Tokenizer) (sample x : dict value) :
  outcome (prepare_dataset env data_args image_processor tokenizer sample) = inr x ->
  keys x = ["pixel_values"; "input_ids"; "attention_mask"].
Proof.
  unfold prepare_dataset. intros H.
  apply bind_inr_inv in H. destruct H as [icn [_ H]].
  apply bind_inr_inv in H. destruct H as [image [_ H]].
  apply bind_inr_inv in H. destruct H as [tcn [_ H]].
  apply bind_inr_inv in H. destruct H as [tv [_ H]].
  assert (Hurl :
    outcome
      (try_except
         (timeout <- getattr data_args "requests_timeout" ;;
          emit (HttpGet image timeout) ;;;
          response <- lift (requests_get env image timeout) ;;
          raise_for_status response ;;;
          img <- lift (Image_open env (content response)) ;;
          match img with
          | None =>
              logger_warning ("Invalid image from URL " ++ py_str image
                              ++ ", skipping sample.") ;;;
              ret null_sample
          | Some im => encode image_processor tokenizer im (py_str tv)
          end)
         is_RequestException_or_IOError
         (fun _ =>
            logger_warning ("Skipping sample due to error fetching URL "
                            ++ py_str image) ;;;
            ret null_sample)) = inr x ->
    keys x = ["pixel_values"; "input_ids"; "attention_mask"]).
  { clear H. intros H. apply try_except_inr_inv in H.
    destruct H as [H | [e [_ H]]].
    - apply bind_inr_inv in H. destruct H as [timeout [_ H]].
      apply bind_inr_inv in H. destruct H as [[] [_ H]].
      apply bind_inr_inv in H. destruct H as [response [_ H]].
      apply bind_inr_inv in H. destruct H as [[] [_ H]].
      apply bind_inr_inv in H. destruct H as [img [_ H]].
      destruct img as [im|].
      + eapply encode_keys; eassumption.
      + simpl in H. inversion H. reflexivity.
    - simpl in H. inversion H. reflexivity. }
  destruct image; try (apply Hurl; exact H).
  eapply encode_keys; eassumption.
Qed.


(* ===================================================================== *)
(** * More on the batch collator                                          *)
(* ===================================================================== *)

Lemma for_each_trace_nil {A B} (f : A -> py B) (l : list A) :
  (forall a, trace (f a) = []) -> trace (for_each f l) = [].
Proof.
  intros Hf. induction l as [|a l IH]; [reflexivity|].
  cbn [for_each]. rewrite trace_bind, Hf.
  destruct (outcome (f a)); [reflexivity|].
  rewrite trace_bind, IH. now destruct (outcome (for_each f l)).
Qed.

Lemma torch_tensor_trace (v : value) : trace (torch_tensor v) = [].
Proof. destruct v; reflexivity. Qed.

Lemma torch_stack_trace (ts : list tensor) : trace (torch_stack ts) = [].
Proof.
  unfold torch_stack. destruct ts as [|t0 ts]; [reflexivity|].
  destruct (forallb _ _); reflexivity.
Qed.

Lemma as_token_ids_trace (v : value) : trace (as_token_ids v) = [].
Proof. unfold as_token_ids. destruct (token_ids v); reflexivity. Qed.

Lemma tokenizer_pad_trace (tok : Tokenizer) (input_ids : list value) :
  trace (tokenizer_pad tok input_ids) = [].
Proof.
  unfold tokenizer_pad. destruct (pad_token_id tok); [|reflexivity].
  rewrite trace_bind, (for_each_trace_nil _ _ as_token_ids_trace).
  now destruct (outcome (for_each as_token_ids input_ids)).
Qed.

Lemma pixel_read_trace (f : dict value) :
  trace (v <- subscript f "pixel_values" ;; t <- torch_tensor v ;; ret (squeeze0 t))
  = [].
Proof.
  rewrite trace_bind, subscript_trace.
  destruct (outcome (subscript f "pixel_values")); [reflexivity|].
  rewrite trace_bind, torch_tensor_trace. now destruct (outcome (torch_tensor _)).
Qed.

(** X1. Whatever it is given, the collator logs the missing-[input_ids]
    error records and nothing else: one record per malformed feature, in
    order; a batch without malformed features leaves no trace, whether a
    batch is returned or an exception is raised. *)
Theorem collator_logs_only_missing_input_ids
  (self : DataCollatorWithPadding.t) (features : list (dict value)) :
  trace (DataCollatorWithPadding.__call__ self features)
  = map missing_report (malformed features).
Proof.
  unfold DataCollatorWithPadding.__call__.
  rewrite count_missing_spec. fold (enumerate features). fold (malformed features).
  rewrite bind_pair. cbn [trace fst].
  destruct (0 <? 0 + List.length (malformed features))%nat;
    [apply app_nil_r|].
  rewrite trace_bind, (for_each_trace_nil _ _ pixel_read_trace).
  destruct (outcome (for_each _ features)); [apply app_nil_r|].
  rewrite trace_bind, torch_stack_trace.
  destruct (outcome (torch_stack _)); [apply app_nil_r|].
  rewrite trace_bind, (for_each_trace_nil _ _ (fun f => subscript_trace f "input_ids")).
  destruct (outcome (for_each _ features)); [apply app_nil_r|].
  rewrite trace_bind, tokenizer_pad_trace.
  destruct (outcome (tokenizer_pad _ _)); apply app_nil_r.
Qed.









Lemma bind_ext {A B} (c : py A) (k k' : A -> py B) :
  (forall a, k a = k' a) -> bind c k = bind c k'.
Proof. intros H. destruct c as [t [e|a]]; simpl; [reflexivity | now rewrite H]. Qed.


(** X5. No label of a returned batch is the pad token id (unless the pad
    token id is itself -100), and every label other than -100 is the token
    id at the same place of [input_ids]: the loss never sees a pad token,
    and sees no token id that is not in the batch. *)
Theorem collator_labels_hold_no_pad_token
  (self : DataCollatorWithPadding.t) (features : list (dict value)) (b : Batch.t) :
  outcome (DataCollatorWithPadding.__call__ self features) = inr b ->
  exists pad,
    pad_token_id (DataCollatorWithPadding.tokenizer self) = Some pad /\
    (pad <> -100 ->
     Forall (fun row => Forall (fun x => x <> pad) row) (Batch.labels b)) /\
    forall i j,
      (i < List.length (Batch.labels b))%nat ->
      (j < List.length (nth i (Batch.labels b) []))%nat ->
      at_ (Batch.labels b) i j <> -100 ->
      at_ (Batch.labels b) i j = at_ (Batch.input_ids b) i j.
Proof.
  intros H. apply collator_returns_inv in H.
  destruct H as [pad [seqs [Hpad [_ [_ [_ Hlab]]]]]].
  exists pad. split; [exact Hpad|]. split.
  - intros Hne. rewrite Hlab. apply Forall_forall. intros row Hrow.
    apply in_map_iff in Hrow. destruct Hrow as [r [<- _]].
    apply Forall_forall. intros x Hx.
    apply in_map_iff in Hx. destruct Hx as [y [<- _]].
    destruct (Z.eqb_spec y pad); congruence.
  - intros i j Hi Hj. unfold at_. rewrite Hlab in *.
    rewrite length_map in Hi.
    rewrite (nth_map_lt _ _ _ [] []) in * by exact Hi.
    rewrite length_map in Hj.
    rewrite (nth_map_lt _ _ _ 0 0) by exact Hj.
    destruct (nth j (nth i (Batch.input_ids b) []) 0 =? pad); congruence.
Qed.

Lemma collator_labels_hold_no_pad_token_witness :
  exists b,
    outcome (DataCollatorWithPadding.__call__ (Demo.collator Demo.eos)
               Demo.features_eos) = inr b /\
    Forall (fun row => Forall (fun x => x <> Demo.eos) row) (Batch.labels b).
Proof.
  eexists. split; [reflexivity|].
  destruct (collator_labels_hold_no_pad_token (Demo.collator Demo.eos)
              Demo.features_eos _ eq_refl) as [pad [Hpad [Hno _]]].
  simpl in Hpad. inversion Hpad; subst pad.
  apply Hno. discriminate.
Defined.

(* ===================================================================== *)
(** * More on dataset preparation                                         *)
(* ===================================================================== *)

Lemma prepare_dataset_unfold (Model : Type) (env : Collaborators Model)
  (data_args : DataTrainingArguments) (image_processor : ImageProcessor)
  (tokenizer : Tokenizer) (sample : dict value) :
  prepare_dataset env data_args image_processor tokenizer sample =
  (image <- subscript_value sample (of_str (image_column_name data_args)) ;;
   tv <- subscript_value sample (of_str (text_column_name data_args)) ;;
   match image with
   | VImage im => encode image_processor tokenizer im (py_str tv)
   | _ => fetch_and_encode env data_args image_processor tokenizer image (py_str tv)
   end).
Proof.
  unfold prepare_dataset, fetch_and_encode.
  rewrite (getattr_field data_args "image_column_name"
             (of_str (image_column_name data_args))) by reflexivity.
  rewrite (getattr_field data_args "text_column_name"
             (of_str (text_column_name data_args))) by reflexivity.
  rewrite bind_ret_l. apply bind_ext. intros image.
  rewrite bind_ret_l. apply bind_ext. intros tv.
  destruct image; reflexivity.
Qed.

(** The three ways the [try] statement can end. *)
Lemma fetch_and_encode_cases (Model : Type) (env : Collaborators Model)
  (data_args : DataTrainingArguments) (image_processor : ImageProcessor)
  (tokenizer : Tokenizer) (image : value) (text : string) :
  (exists e,
     fetch_and_encode env data_args image_processor tokenizer image text
     = ([the_request data_args image], inl e) /\
     is_RequestException_or_IOError e = false) \/
  (exists msg,
     fetch_and_encode env data_args image_processor tokenizer image text
     = ([the_request data_args image; Log WARNING msg], inr null_sample)) \/
  (exists x r im,
     fetch_and_encode env data_args image_processor tokenizer image text
     = ([the_request data_args image], inr x) /\
     requests_get env image (VInt (requests_timeout data_args)) = inr r /\
     Image_open env (content r) = inr (Some im) /\
     outcome (encode image_processor tokenizer im text) = inr x).
Proof.
  unfold fetch_and_encode, the_request.
  rewrite (getattr_field data_args "requests_timeout"
             (VInt (requests_timeout data_args))) by reflexivity.
  rewrite bind_ret_l, bind_emit.
  destruct (requests_get env image (VInt (requests_timeout data_args)))
    as [e|r] eqn:Eget.
  { cbn [lift bind trace outcome fst snd try_except].
    destruct (is_RequestException_or_IOError e) eqn:Ec.
    - right. left. eexists. reflexivity.
    - left. exists e. split; [reflexivity | exact Ec]. }
  rewrite bind_lift_inr.
  unfold raise_for_status.
  destruct ((400 <=? status_code r) && (status_code r <? 600)).
  { right. left. eexists. reflexivity. }
  rewrite bind_ret_l.
  destruct (Image_open env (content r)) as [e|[im|]] eqn:Eopen.
  - cbn [lift bind trace outcome fst snd try_except].
    destruct (is_RequestException_or_IOError e) eqn:Ec.
    + right. left. eexists. reflexivity.
    + left. exists e. split; [reflexivity | exact Ec].
  - rewrite bind_lift_inr.
    rewrite (pair_eta (encode image_processor tokenizer im text)), encode_trace.
    destruct (outcome (encode image_processor tokenizer im text)) as [e|x] eqn:Eenc.
    + cbn [trace outcome fst snd try_except].
      destruct (is_RequestException_or_IOError e) eqn:Ec.
      * right. left. eexists. reflexivity.
      * left. exists e. split; [reflexivity | exact Ec].
    + right. right. exists x, r, im. repeat split; [exact Eopen | exact Eenc].
  - right. left. eexists. reflexivity.
Qed.

Lemma bind_nil_inr {A B} (a : A) (k : A -> py B) : bind ([], inr a) k = k a.
Proof. apply bind_ret_l. Qed.

Lemma subscript_value_eta (d : dict value) (k : value) :
  subscript_value d k = ([], outcome (subscript_value d k)).
Proof. rewrite (pair_eta (subscript_value d k)) at 1. now rewrite subscript_value_trace. Qed.

(** X6. Whatever the row and the collaborators, [prepare_dataset] sends at
    most one HTTP request and logs at most one warning: its trace is
    empty, or the one request, or the one request followed by one warning;
    and a warning is logged only when the all-null sample is returned,
    never along with an exception or with an encoded sample. *)
Theorem prepare_dataset_one_request_one_warning (Model : Type)
  (env : Collaborators Model) (data_args : DataTrainingArguments)
  (image_processor : ImageProcessor) (tokenizer : Tokenizer)
  (sample : dict value) :
  let run := prepare_dataset env data_args image_processor tokenizer sample in
  trace run = [] \/
  (exists image, trace run = [the_request data_args image]) \/
  (exists image msg,
     run = ([the_request data_args image; Log WARNING msg], inr null_sample)).
Proof.
  intros run. subst run. rewrite prepare_dataset_unfold.
  rewrite (subscript_value_eta sample (of_str (image_column_name data_args))).
  destruct (outcome (subscript_value sample (of_str (image_column_name data_args))))
    as [e|image]; [left; reflexivity|].
  rewrite bind_nil_inr.
  rewrite (subscript_value_eta sample (of_str (text_column_name data_args))).
  destruct (outcome (subscript_value sample (of_str (text_column_name data_args))))
    as [e|tv]; [left; reflexivity|].
  rewrite bind_nil_inr.
  assert (Hfetch :
    trace (fetch_and_encode env data_args image_processor tokenizer image (py_str tv))
    = [] \/
    (exists image',
       trace (fetch_and_encode env data_args image_processor tokenizer image (py_str tv))
       = [the_request data_args image']) \/
    (exists image' msg,
       fetch_and_encode env data_args image_processor tokenizer image (py_str tv)
       = ([the_request data_args image'; Log WARNING msg], inr null_sample))).
  { destruct (fetch_and_encode_cases _ env data_args image_processor tokenizer
                image (py_str tv)) as [[e [-> _]] | [[msg ->] | [x [r [im [-> _]]]]]].
    - right. left. eexists. reflexivity.
    - right. right. eexists. eexists. reflexivity.
    - right. left. eexists. reflexivity. }
  destruct image; try exact Hfetch.
  left. apply encode_trace.
Qed.

(** X7. A row that lacks the configured image column, or has it but lacks
    the configured text column, makes [prepare_dataset] raise [KeyError]
    on that column name at once: nothing is requested and nothing is
    logged, even when the image cell is a URL. *)
Theorem prepare_dataset_missing_cell_raises (Model : Type)
  (env : Collaborators Model) (data_args : DataTrainingArguments)
  (image_processor : ImageProcessor) (tokenizer : Tokenizer)
  (sample : dict value) (ic tc : string) :
  image_column_name data_args = Some ic ->
  text_column_name data_args = Some tc ->
  (dict_get ic sample = None ->
   prepare_dataset env data_args image_processor tokenizer sample
   = ([], inl (KeyError ic))) /\
  (dict_get ic sample <> None -> dict_get tc sample = None ->
   prepare_dataset env data_args image_processor tokenizer sample
   = ([], inl (KeyError tc))).
Proof.
  intros Hic Htc. rewrite prepare_dataset_unfold, Hic, Htc.
  cbn [of_str subscript_value]. unfold subscript. split.
  - intros ->. reflexivity.
  - intros Hi Ht. destruct (dict_get ic sample) as [image|]; [|congruence].
    rewrite bind_ret_l, Ht. reflexivity.
Qed.

Lemma prepare_dataset_missing_cell_raises_witness :
  prepare_dataset Demo.env (Demo.data_args None) Demo.image_processor
    (Demo.tokenizer 0) [ ("image", VStr "http://img/cat") ]
  = ([], inl (KeyError "text"))
  /\
  prepare_dataset Demo.env (Demo.data_args None) Demo.image_processor
    (Demo.tokenizer 0) [ ("text", VStr "a cat") ]
  = ([], inl (KeyError "image")).
Proof.
  split.
  - apply (prepare_dataset_missing_cell_raises _ Demo.env (Demo.data_args None)
             Demo.image_processor (Demo.tokenizer 0)
             [ ("image", VStr "http://img/cat") ] "image" "text" eq_refl eq_refl);
      [discriminate | reflexivity].
  - apply (prepare_dataset_missing_cell_raises _ Demo.env (Demo.data_args None)
             Demo.image_processor (Demo.tokenizer 0)
             [ ("text", VStr "a cat") ] "image" "text" eq_refl eq_refl).
    reflexivity.
Defined.

Lemma raise_for_status_passes (r : Response) :
  ~ error_status (status_code r) -> raise_for_status r = ret tt.
Proof.
  unfold error_status, raise_for_status. intros H.
  destruct (Z.leb_spec 400 (status_code r)); [|reflexivity].
  destruct (Z.ltb_spec (status_code r) 600); [|reflexivity].
  exfalso. apply H. lia.
Qed.

(** The [try] statement when the fetch succeeds and the payload decodes. *)
Lemma fetch_and_encode_fetched (Model : Type) (env : Collaborators Model)
  (data_args : DataTrainingArguments) (image_processor : ImageProcessor)
  (tokenizer : Tokenizer) (image : value) (text : string)
  (r : Response) (im : PIL_Image) :
  requests_get env image (VInt (requests_timeout data_args)) = inr r ->
  ~ error_status (status_code r) ->
  Image_open env (content r) = inr (Some im) ->
  fetch_and_encode env data_args image_processor tokenizer image text =
  match outcome (encode image_processor tokenizer im text) with
  | inr x => ([the_request data_args image], inr x)
  | inl e =>
      if is_RequestException_or_IOError e
      then ([the_request data_args image;
             Log WARNING ("Skipping sample due to error fetching URL "
                          ++ py_str image)],
            inr null_sample)
      else ([the_request data_args image], inl e)
  end.
Proof.
  intros Hget Hok Hopen. unfold fetch_and_encode, the_request.
  rewrite (getattr_field data_args "requests_timeout"
             (VInt (requests_timeout data_args))) by reflexivity.
  rewrite bind_ret_l, bind_emit, Hget, bind_lift_inr.
  rewrite (raise_for_status_passes r Hok), bind_ret_l, Hopen, bind_lift_inr.
  rewrite (pair_eta (encode image_processor tokenizer im text)), encode_trace.
  cbn [outcome snd].
  destruct (outcome (encode image_processor tokenizer im text)) as [e|x];
    cbn [trace outcome fst snd try_except]; [|reflexivity].
  destruct (is_RequestException_or_IOError e); reflexivity.
Qed.

Lemma prepare_dataset_on_cells (Model : Type) (env : Collaborators Model)
  (data_args : DataTrainingArguments) (image_processor : ImageProcessor)
  (tokenizer : Tokenizer) (sample : dict value) (ic tc : string)
  (image tv : value) :
  image_column_name data_args = Some ic ->
  text_column_name data_args = Some tc ->
  dict_get ic sample = Some image ->
  dict_get tc sample = Some tv ->
  prepare_dataset env data_args image_processor tokenizer sample =
  match image with
  | VImage im => encode image_processor tokenizer im (py_str tv)
  | _ => fetch_and_encode env data_args image_processor tokenizer image (py_str tv)
  end.
Proof.
  intros Hic Htc Himg Htxt. rewrite prepare_dataset_unfold, Hic, Htc.
  cbn [of_str subscript_value].
  now rewrite (subscript_get _ _ _ Himg), bind_ret_l,
    (subscript_get _ _ _ Htxt), bind_ret_l.
Qed.

(** X8. When the image cell is a URL, the request is answered with a
    status that is not an error status, the payload decodes to an image
    and the two encoders accept it, [prepare_dataset] makes that one
    request, logs nothing and returns the very encoded sample it returns
    for a row holding the decoded image in memory with the same caption. *)
Theorem prepare_dataset_url_encodes_as_in_memory (Model : Type)
  (env : Collaborators Model) (data_args : DataTrainingArguments)
  (image_processor : ImageProcessor) (tokenizer : Tokenizer)
  (sample : dict value) (ic tc url : string) (tv : value)
  (r : Response) (im : PIL_Image) (x : dict value) :
  image_column_name data_args = Some ic ->
  text_column_name data_args = Some tc ->
  dict_get ic sample = Some (VStr url) ->
  dict_get tc sample = Some tv ->
  requests_get env (VStr url) (VInt (requests_timeout data_args)) = inr r ->
  ~ error_status (status_code r) ->
  Image_open env (content r) = inr (Some im) ->
  outcome (encode image_processor tokenizer im (py_str tv)) = inr x ->
  prepare_dataset env data_args image_processor tokenizer sample
  = ([the_request data_args (VStr url)], inr x) /\
  forall sample',
    dict_get ic sample' = Some (VImage im) -> dict_get tc sample' = Some tv ->
    prepare_dataset env data_args image_processor tokenizer sample' = ([], inr x).
Proof.
  intros Hic Htc Himg Htxt Hget Hok Hopen Henc. split.
  - rewrite (prepare_dataset_on_cells _ env data_args image_processor tokenizer
               sample ic tc (VStr url) tv Hic Htc Himg Htxt).
    rewrite (fetch_and_encode_fetched _ env data_args image_processor tokenizer
               (VStr url) (py_str tv) r im Hget Hok Hopen).
    now rewrite Henc.
  - intros sample' Himg' Htxt'.
    rewrite (prepare_dataset_on_cells _ env data_args image_processor tokenizer
               sample' ic tc (VImage im) tv Hic Htc Himg' Htxt').
    rewrite (pair_eta (encode image_processor tokenizer im (py_str tv))).
    now rewrite encode_trace, Henc.
Qed.

Lemma prepare_dataset_url_encodes_as_in_memory_witness :
  exists x,
    prepare_dataset Demo.env (Demo.data_args None) Demo.image_processor
      (Demo.tokenizer 0) (Demo.row "http://img/cat")
    = ([HttpGet (VStr "http://img/cat") (VInt 1)], inr x) /\
    prepare_dataset Demo.env (Demo.data_args None) Demo.image_processor
      (Demo.tokenizer 0)
      [ ("image", VImage {| im_width := 2; im_height := 1; im_data := [30; 40] |});
        ("text", VStr "hi") ]
    = ([], inr x).
Proof.
  assert (Hok : ~ error_status 200) by (unfold error_status; lia).
  eexists.
  destruct (prepare_dataset_url_encodes_as_in_memory _ Demo.env (Demo.data_args None)
              Demo.image_processor (Demo.tokenizer 0) (Demo.row "http://img/cat")
              "image" "text" "http://img/cat" (VStr "hi")
              {| status_code := 200; content := [1; 30; 40] |}
              {| im_width := 2; im_height := 1; im_data := [30; 40] |}
              _ eq_refl eq_refl eq_refl eq_refl eq_refl Hok
              eq_refl eq_refl) as [H1 H2].
  split; [exact H1|]. apply H2; reflexivity.
Defined.

(** X9. An [IOError] of the image processor is handled differently on the
    two paths: for an image fetched from a URL it is caught, the sample is
    dropped with one warning naming the URL; for the same image held in
    memory it is not caught, and [prepare_dataset] raises it. *)
Theorem prepare_dataset_processor_ioerror (Model : Type)
  (env : Collaborators Model) (data_args : DataTrainingArguments)
  (image_processor : ImageProcessor) (tokenizer : Tokenizer)
  (ic tc : string) (tv : value) (im : PIL_Image) (m : string) :
  image_column_name data_args = Some ic ->
  text_column_name data_args = Some tc ->
  image_processor im = inl (IOError m) ->
  (forall sample,
     dict_get ic sample = Some (VImage im) -> dict_get tc sample = Some tv ->
     prepare_dataset env data_args image_processor tokenizer sample
     = ([], inl (IOError m))) /\
  (forall sample url r,
     dict_get ic sample = Some (VStr url) -> dict_get tc sample = Some tv ->
     requests_get env (VStr url) (VInt (requests_timeout data_args)) = inr r ->
     ~ error_status (status_code r) ->
     Image_open env (content r) = inr (Some im) ->
     prepare_dataset env data_args image_processor tokenizer sample
     = ([the_request data_args (VStr url);
         Log WARNING ("Skipping sample due to error fetching URL " ++ url)],
        inr null_sample)).
Proof.
  intros Hic Htc Hip.
  assert (Henc : encode image_processor tokenizer im (py_str tv)
                 = ([], inl (IOError m))).
  { unfold encode. now rewrite Hip. }
  split.
  - intros sample Himg Htxt.
    now rewrite (prepare_dataset_on_cells _ env data_args image_processor tokenizer
                   sample ic tc (VImage im) tv Hic Htc Himg Htxt).
  - intros sample url r Himg Htxt Hget Hok Hopen.
    rewrite (prepare_dataset_on_cells _ env data_args image_processor tokenizer
               sample ic tc (VStr url) tv Hic Htc Himg Htxt).
    rewrite (fetch_and_encode_fetched _ env data_args image_processor tokenizer
               (VStr url) (py_str tv) r im Hget Hok Hopen).
    now rewrite Henc.
Qed.

Lemma prepare_dataset_processor_ioerror_witness :
  prepare_dataset Demo.env (Demo.data_args None) truncated_image_processor
    (Demo.tokenizer 0) [ ("image", VImage Demo.dog); ("text", VStr "a dog") ]
  = ([], inl (IOError "image file is truncated"))
  /\
  prepare_dataset Demo.env (Demo.data_args None) truncated_image_processor
    (Demo.tokenizer 0) (Demo.row "http://img/cat")
  = ([ HttpGet (VStr "http://img/cat") (VInt 1);
       Log WARNING "Skipping sample due to error fetching URL http://img/cat" ],
     inr null_sample).
Proof.
  assert (Hok : ~ error_status 200) by (unfold error_status; lia).
  split.
  - apply (proj1 (prepare_dataset_processor_ioerror _ Demo.env (Demo.data_args None)
                    truncated_image_processor (Demo.tokenizer 0)
                    "image" "text" (VStr "a dog") Demo.dog "image file is truncated"
                    eq_refl eq_refl eq_refl));
      reflexivity.
  - apply (proj2 (prepare_dataset_processor_ioerror _ Demo.env (Demo.data_args None)
                    truncated_image_processor (Demo.tokenizer 0)
                    "image" "text" (VStr "hi")
                    {| im_width := 2; im_height := 1; im_data := [30; 40] |}
                    "image file is truncated" eq_refl eq_refl eq_refl)
             (Demo.row "http://img/cat") "http://img/cat"
             {| status_code := 200; content := [1; 30; 40] |}
             eq_refl eq_refl eq_refl Hok eq_refl).
Defined.

(* ===================================================================== *)
(** * More on the map-then-filter pipeline                                *)
(* ===================================================================== *)

Lemma for_each_length {A B} (f : A -> py B) (l : list A) (bs : list B) :
  outcome (for_each f l) = inr bs -> List.length bs = List.length l.
Proof.
  intros H. apply for_each_inr in H. symmetry. eapply Forall2_length; eassumption.
Qed.

(** What a filter returns is the plain filtering of its input by the
    verdicts of its predicate, which raised on no row. *)
Lemma Dataset_filter_inr (rs out : list (dict value)) :
  outcome (Dataset_filter all_fields_not_None rs) = inr out ->
  out = filter kept_by_filter rs /\
  Forall (fun r => exists keep, outcome (all_fields_not_None r) = inr keep) rs.
Proof.
  revert out. induction rs as [|r rs IH]; intros out H.
  - inversion H. split; [reflexivity | constructor].
  - cbn [Dataset_filter] in H.
    apply bind_inr_inv in H. destruct H as [keep [Hkeep H]].
    apply bind_inr_inv in H. destruct H as [kept [Hkept H]].
    destruct (IH _ Hkept) as [-> Hall].
    simpl in H. inversion H; subst out; clear H.
    split.
    + assert (E : kept_by_filter r = keep)
        by (unfold kept_by_filter; now rewrite Hkeep).
      cbn [filter]. rewrite E. reflexivity.
    + constructor; [eauto | exact Hall].
Qed.

(** X10. The dataset [process_dataset] returns is the filtering of the
    mapped rows by the verdict of the three [is not None] tests: the
    mapped rows are as many as the raw rows, the returned rows are those
    of them that pass, in their original order, so the result is never
    longer than the input and no row is reordered or duplicated. *)
Theorem process_dataset_is_filter_of_map
  (prepare : dict value -> py (dict value)) (remove_columns : list string)
  (dataset : Dataset) (out : list (dict value)) :
  outcome (process_dataset prepare remove_columns dataset) = inr out ->
  exists mapped,
    outcome (Dataset_map prepare remove_columns dataset) = inr mapped /\
    List.length mapped = List.length (rows dataset) /\
    out = filter kept_by_filter mapped /\
    (List.length out <= List.length (rows dataset))%nat.
Proof.
  unfold process_dataset. intros H.
  apply bind_inr_inv in H. destruct H as [mapped [Hmap H]].
  apply Dataset_filter_inr in H. destruct H as [-> _].
  exists mapped.
  assert (Hlen : List.length mapped = List.length (rows dataset))
    by (unfold Dataset_map in Hmap; eapply for_each_length; eassumption).
  split; [exact Hmap|]. split; [exact Hlen|]. split; [reflexivity|].
  rewrite <- Hlen. apply filter_length_le.
Qed.

Lemma process_dataset_is_filter_of_map_witness :
  exists out mapped,
    outcome (process_dataset
               (prepare_dataset Demo.env (Demo.data_args None)
                  Demo.image_processor (Demo.tokenizer 0))
               ["image"; "text"] Demo.captions) = inr out /\
    List.length mapped = 3%nat /\
    out = filter kept_by_filter mapped /\
    List.length out = 2%nat.
Proof.
  eexists.
  destruct (process_dataset_is_filter_of_map
              (prepare_dataset Demo.env (Demo.data_args None)
                 Demo.image_processor (Demo.tokenizer 0))
              ["image"; "text"] Demo.captions _ eq_refl)
    as [mapped [_ [Hlen [Hout _]]]].
  exists mapped. split; [reflexivity|]. split; [exact Hlen|].
  split; [exact Hout | reflexivity].
Defined.

Lemma in_fold_dict_remove {V} (cols : list string) (row : dict V) (kv : string * V) :
  In kv (fold_left (fun r c => dict_remove c r) cols row) ->
  In kv row /\ ~ In (fst kv) cols.
Proof.
  revert row. induction cols as [|c cols IH]; intros row H; simpl in *.
  - tauto.
  - apply IH in H. destruct H as [H Hn]. unfold dict_remove in H.
    apply filter_In in H. destruct H as [Hin Hc].
    split; [exact Hin|]. intros [E|Hc']; [|contradiction].
    rewrite E, String.eqb_refl in Hc. discriminate.
Qed.

Lemma fold_dict_remove_all {V} (cols : list string) (row : dict V) :
  (forall k, In k (keys row) -> In k cols) ->
  fold_left (fun r c => dict_remove c r) cols row = [].
Proof.
  intros H.
  destruct (fold_left (fun r c => dict_remove c r) cols row) as [|kv rest] eqn:E;
    [reflexivity|].
  assert (Hin : In kv (fold_left (fun r c => dict_remove c r) cols row))
    by (rewrite E; now left).
  apply in_fold_dict_remove in Hin. destruct Hin as [Hin Hn].
  exfalso. apply Hn, H. unfold keys. now apply in_map.
Qed.

Lemma dict_update_sample (x : dict value) :
  keys x = sample_keys -> dict_update [] x = x.
Proof.
  unfold sample_keys. intros H.
  destruct x as [|[k1 v1] [|[k2 v2] [|[k3 v3] [|]]]]; try discriminate H.
  simpl in H. inversion H; subst. reflexivity.
Qed.

(** X11. When the removed columns cover every cell of the raw rows, as
    the column names of the dataset do, the rows [process_dataset] returns
    with [prepare_dataset] as transform are exactly the encoded samples
    [prepare_dataset] returned, minus the dropped ones: each has the three
    keys [pixel_values], [input_ids], [attention_mask] and no other, so no
    raw column reaches the trainer. *)
Theorem process_dataset_returns_encoded_samples_only (Model : Type)
  (env : Collaborators Model) (data_args : DataTrainingArguments)
  (image_processor : ImageProcessor) (tokenizer : Tokenizer)
  (remove_columns : list string) (dataset : Dataset) (out : list (dict value)) :
  Forall (fun row => forall k, In k (keys row) -> In k remove_columns)
         (rows dataset) ->
  outcome (process_dataset (prepare_dataset env data_args image_processor tokenizer)
             remove_columns dataset) = inr out ->
  exists samples,
    Forall2 (fun row x =>
               outcome (prepare_dataset env data_args image_processor tokenizer row)
               = inr x)
            (rows dataset) samples /\
    out = filter kept_by_filter samples /\
    Forall (fun x => keys x = sample_keys) out.
Proof.
  intros Hcover H. unfold process_dataset in H.
  apply bind_inr_inv in H. destruct H as [mapped [Hmap H]].
  apply Dataset_filter_inr in H. destruct H as [-> _].
  unfold Dataset_map in Hmap. apply for_each_inr in Hmap.
  assert (Hsamples :
    Forall2 (fun row x =>
               outcome (prepare_dataset env data_args image_processor tokenizer row)
               = inr x)
            (rows dataset) mapped /\
    Forall (fun x => keys x = sample_keys) mapped).
  { clear - Hcover Hmap. induction Hmap as [|row x rs xs Hrx Hmap IH].
    - split; constructor.
    - inversion Hcover as [|row' rs' Hrow Hrest]; subst.
      destruct (IH Hrest) as [IH1 IH2].
      cbv beta in Hrx. apply bind_inr_inv in Hrx. destruct Hrx as [y [Hy Hrx]].
      simpl in Hrx. inversion Hrx; subst x; clear Hrx.
      pose proof (prepare_dataset_keys _ _ _ _ _ _ _ Hy) as Hk.
      rewrite (fold_dict_remove_all _ _ Hrow), (dict_update_sample y Hk).
      split; constructor; assumption. }
  destruct Hsamples as [H1 H2].
  exists mapped. split; [exact H1|]. split; [reflexivity|].
  apply Forall_forall. intros x Hx. apply filter_In in Hx.
  rewrite Forall_forall in H2. now apply H2.
Qed.

Lemma process_dataset_returns_encoded_samples_only_witness :
  exists out,
    outcome (process_dataset
               (prepare_dataset Demo.env (Demo.data_args None)
                  Demo.image_processor (Demo.tokenizer 0))
               (column_names Demo.captions) Demo.captions) = inr out /\
    Forall (fun x => keys x = sample_keys) out.
Proof.
  assert (Hcover : Forall (fun row => forall k, In k (keys row) ->
                                      In k (column_names Demo.captions))
                          (rows Demo.captions))
    by (simpl; repeat (apply Forall_cons; [simpl; intros k Hk; tauto|]);
        apply Forall_nil).
  eexists. split; [reflexivity|].
  destruct (process_dataset_returns_encoded_samples_only _ Demo.env
              (Demo.data_args None) Demo.image_processor (Demo.tokenizer 0)
              (column_names Demo.captions) Demo.captions _ Hcover eq_refl)
    as [samples [_ [_ H]]].
  exact H.
Defined.



(* ===================================================================== *)
(** * More on the model dispatcher                                        *)
(* ===================================================================== *)

(** X13. [load_model] ends in exactly one of four ways: it raises its
    [ValueError] having done nothing; it logs one warning and returns
    [None] having called no loader; it calls one loader, once, on the
    given checkpoint, and raises what the loader raised; or it calls one
    loader, once, on the given checkpoint, logs the choice and returns
    that loader's model.  A loader failure is never turned into [None],
    and only the first architecture name is looked at. *)
Theorem load_model_ends_in_four_ways (Model : Type) (env : Collaborators Model)
  (checkpoint : value) (config : PretrainedConfig) :
  (load_model env checkpoint config
   = ([], inl (ValueError ("No architecture found in config for "
                           ++ py_str checkpoint))) \/
   (exists msg, load_model env checkpoint config = ([Log WARNING msg], inr None)) \/
   (exists cls e,
      from_pretrained env cls checkpoint = inl e /\
      load_model env checkpoint config
      = ([ModelFromPretrained cls checkpoint], inl e)) \/
   (exists cls m msg,
      from_pretrained env cls checkpoint = inr m /\
      load_model env checkpoint config
      = ([ModelFromPretrained cls checkpoint; Log INFO msg], inr (Some m)))) /\
  (forall a rest,
     architectures config = Some (a :: rest) ->
     load_model env checkpoint config
     = load_model env checkpoint {| architectures := Some [a] |}).
Proof.
  split.
  - destruct (architectures config) as [[|a rest]|] eqn:Earch;
      try (left; unfold load_model; rewrite Earch; reflexivity).
    destruct (String.eqb_spec a EmptyString) as [->|Hne].
    { left. unfold load_model. rewrite Earch. reflexivity. }
    rewrite (load_model_on _ env checkpoint config a rest Earch Hne).
    destruct (find_model_class model_class_mapping a) as [cls|].
    + unfold loads_through.
      destruct (from_pretrained env cls checkpoint) as [e|m] eqn:Eload.
      * right. right. left. exists cls, e. split; [exact Eload | reflexivity].
      * right. right. right. exists cls, m. eexists.
        split; [exact Eload | reflexivity].
    + right. left. eexists. reflexivity.
  - intros a rest Earch. unfold load_model. rewrite Earch. reflexivity.
Qed.

(* ===================================================================== *)
(** * More on [main]                                                      *)
(* ===================================================================== *)

Lemma Forall_trace_bind {A B} (P : event -> Prop) (c : py A) (k : A -> py B) :
  Forall P (trace c) ->
  (forall a, outcome c = inr a -> Forall P (trace (k a))) ->
  Forall P (trace (bind c k)).
Proof.
  intros Hc Hk. rewrite trace_bind. apply Forall_app. split; [exact Hc|].
  destruct (outcome c) as [e|a]; [constructor | now apply Hk].
Qed.

(** A run without [do_train] stops before any collaborator is called. *)
Lemma main_without_training (Model : Type) (env : Collaborators Model)
  (model_args : ModelArguments) (data_args : DataTrainingArguments)
  (training_args : ImageCapTrainingArguments) :
  do_train training_args = false ->
  main env model_args data_args training_args
  = ([], inl (no_train_error data_args training_args)).
Proof.
  intros Htrain. unfold main, load_raw_datasets, check_columns, no_train_error.
  rewrite Htrain.
  rewrite (getattr_field data_args "eval_split_name"
             (of_str (eval_split_name data_args))) by reflexivity.
  rewrite (getattr_undeclared data_args "dataset_name_or_path") by reflexivity.
  rewrite (getattr_field data_args "image_column_name"
             (of_str (image_column_name data_args))) by reflexivity.
  destruct (do_eval training_args);
    destruct (eval_split_name data_args) as [[|c s]|]; reflexivity.
Qed.

(** X14. [main] can only run to its end as a training run that evaluates,
    if at all, on the held-out part of the training set: a run without
    [do_train] stops before anything is loaded, with the
    [AttributeError] of the evaluation branch, the [KeyError] of the
    missing "train" split or the [StopIteration] of the empty
    [raw_datasets]; and whenever [main] returns, [do_train] is set, and
    [eval_split_name] is [None] if [do_eval] is set. *)
Theorem main_returns_only_for_training_runs (Model : Type)
  (env : Collaborators Model) (model_args : ModelArguments)
  (data_args : DataTrainingArguments) (training_args : ImageCapTrainingArguments) :
  (do_train training_args = false ->
   main env model_args data_args training_args
   = ([], inl (no_train_error data_args training_args))) /\
  (forall result,
     outcome (main env model_args data_args training_args) = inr result ->
     do_train training_args = true /\
     (do_eval training_args = true -> eval_split_name data_args = None)).
Proof.
  split; [apply main_without_training|].
  intros result Hret. split.
  - destruct (do_train training_args) eqn:Htrain; [reflexivity|].
    rewrite (main_without_training _ env model_args data_args training_args Htrain)
      in Hret.
    discriminate Hret.
  - intros Heval. destruct (eval_split_name data_args) as [s|] eqn:Hesn;
      [|reflexivity].
    exfalso. unfold main in Hret.
    apply bind_inr_inv in Hret. destruct Hret as [raw [Hraw _]].
    rewrite (load_raw_datasets_eval_branch _ env model_args data_args
               training_args s Heval Hesn) in Hraw.
    destruct (do_train training_args); [|discriminate Hraw].
    destruct (train_load env model_args data_args); discriminate Hraw.
Qed.

Lemma main_returns_only_for_training_runs_witness :
  (exists result,
     outcome (main Demo.env Demo.model_args (Demo.data_args None)
                Demo.train_and_eval) = inr result) /\
  main Demo.env Demo.model_args (Demo.data_args None)
    {| do_train := false; do_eval := true |}
  = ([], inl (KeyError "train")) /\
  main Demo.env Demo.model_args (Demo.data_args (Some "test"))
    {| do_train := false; do_eval := false |}
  = ([], inl StopIteration).
Proof.
  split; [eexists; reflexivity|]. split.
  - apply (proj1 (main_returns_only_for_training_runs _ Demo.env Demo.model_args
                    (Demo.data_args None) {| do_train := false; do_eval := true |})).
    reflexivity.
  - apply (proj1 (main_returns_only_for_training_runs _ Demo.env Demo.model_args
                    (Demo.data_args (Some "test"))
                    {| do_train := false; do_eval := false |})).
    reflexivity.
Defined.

Lemma process_dataset_usable (prepare : dict value -> py (dict value))
  (remove_columns : list string) (dataset : Dataset) (out : list (dict value)) :
  outcome (process_dataset prepare remove_columns dataset) = inr out ->
  Forall usable out.
Proof.
  unfold process_dataset. intros H.
  apply bind_inr_inv in H. destruct H as [mapped [_ H]].
  apply Dataset_filter_kept in H. destruct H as [H _].
  eapply Forall_impl; [|exact H]. intros x. apply all_fields_not_None_true.
Qed.

(** X16. What [main] hands to the trainer, whenever it gets that far: the
    run is a training run that is not preprocessing-only; the training
    set is there and holds usable samples only; the evaluation set is
    there exactly when [do_eval] is set, and then holds usable samples
    only; the collator forwards the attention mask and pads with the
    tokenizer [AutoTokenizer] returned; and when the vocabulary is to be
    overwritten, a model was loaded and its embeddings were resized
    without error. *)
Theorem main_hands_over_usable_datasets (Model : Type)
  (env : Collaborators Model) (model_args : ModelArguments)
  (data_args : DataTrainingArguments) (training_args : ImageCapTrainingArguments)
  (model : option Model) (train_dataset eval_dataset : option (list (dict value)))
  (data_collator : DataCollatorWithPadding.t) :
  outcome (main env model_args data_args training_args)
  = inr (TrainerInputs model train_dataset eval_dataset data_collator) ->
  preprocessing_only data_args = false /\
  do_train training_args = true /\
  (exists samples, train_dataset = Some samples /\ Forall usable samples) /\
  (if do_eval training_args
   then exists samples, eval_dataset = Some samples /\ Forall usable samples
   else eval_dataset = None) /\
  DataCollatorWithPadding.forward_attention_mask data_collator = true /\
  AutoTokenizer_from_pretrained env
    (if_else (tokenizer_name model_args) (model_name_or_path model_args))
    (cache_dir model_args) (use_fast_tokenizer model_args)
  = inr (DataCollatorWithPadding.tokenizer data_collator) /\
  (overwrite_vocabulary model_args = true ->
   exists m,
     model = Some m /\
     resize_token_embeddings env m
       (tokenizer_len env (DataCollatorWithPadding.tokenizer data_collator))
     = inr tt).
Proof.
  intros H.
  assert (Htrain : do_train training_args = true).
  { destruct (do_train training_args) eqn:E; [reflexivity|].
    rewrite (main_without_training _ env model_args data_args training_args E) in H.
    discriminate H. }
  unfold main in H. rewrite Htrain in H.
  apply bind_inr_inv in H. destruct H as [raw [_ H]].
  apply bind_inr_inv in H. destruct H as [[] [_ H]].
  apply bind_inr_inv in H. destruct H as [[] [_ H]].
  apply bind_inr_inv in H. destruct H as [config [_ H]].
  apply bind_inr_inv in H. destruct H as [[] [_ H]].
  apply bind_inr_inv in H. destruct H as [image_processor [_ H]].
  apply bind_inr_inv in H. destruct H as [[] [_ H]].
  apply bind_inr_inv in H. destruct H as [tokenizer [Htok H]].
  apply bind_inr_inv in H. destruct H as [raw1 [_ H]].
  apply bind_inr_inv in H. destruct H as [raw2 [_ H]].
  apply bind_inr_inv in H. destruct H as [train [_ H]].
  apply bind_inr_inv in H. destruct H as [vec1 [Hvec1 H]].
  apply bind_inr_inv in H. destruct H as [vec2 [Hvec2 H]].
  destruct (preprocessing_only data_args).
  { apply bind_inr_inv in H. destruct H as [[] [_ H]]. discriminate H. }
  apply bind_inr_inv in H. destruct H as [model' [_ H]].
  apply bind_inr_inv in H. destruct H as [[] [Hresize H]].
  apply bind_inr_inv in H. destruct H as [tr [Htr H]].
  apply bind_inr_inv in H. destruct H as [ev [Hev H]].
  simpl in H. inversion H; subst model' tr ev data_collator; clear H.
  (* the training set *)
  apply bind_inr_inv in Hvec1. destruct Hvec1 as [d [_ Hvec1]].
  apply bind_inr_inv in Hvec1. destruct Hvec1 as [v [Hv Hvec1]].
  simpl in Hvec1. inversion Hvec1; subst vec1; clear Hvec1.
  apply process_dataset_usable in Hv.
  cbn [DataCollatorWithPadding.tokenizer DataCollatorWithPadding.__init__
       DataCollatorWithPadding.forward_attention_mask].
  assert (Hresized : overwrite_vocabulary model_args = true ->
                     exists m, model = Some m /\
                               resize_token_embeddings env m
                                 (tokenizer_len env tokenizer) = inr tt).
  { intros Hover. rewrite Hover in Hresize.
    destruct model as [m|]; [|discriminate Hresize].
    exists m. split; [reflexivity|].
    destruct (resize_token_embeddings env m (tokenizer_len env tokenizer))
      as [e|[]]; [discriminate Hresize | reflexivity]. }
  split; [reflexivity|]. split; [exact Htrain|].
  destruct (do_eval training_args).
  - apply bind_inr_inv in Hvec2. destruct Hvec2 as [d' [_ Hvec2]].
    apply bind_inr_inv in Hvec2. destruct Hvec2 as [v' [Hv' Hvec2]].
    simpl in Hvec2. inversion Hvec2; subst vec2; clear Hvec2.
    apply process_dataset_usable in Hv'.
    simpl in Htr, Hev. inversion Htr; inversion Hev; subst.
    split; [eauto|]. split; [eauto|]. split; [reflexivity|].
    split; [exact Htok | exact Hresized].
  - simpl in Hvec2. inversion Hvec2; subst vec2; clear Hvec2.
    simpl in Htr, Hev. inversion Htr; inversion Hev; subst.
    split; [eauto|]. split; [reflexivity|]. split; [reflexivity|].
    split; [exact Htok | exact Hresized].
Qed.

Lemma main_hands_over_usable_datasets_witness :
  exists model train_dataset eval_dataset data_collator,
    outcome (main Demo.env Demo.model_args (Demo.data_args None) Demo.train_and_eval)
    = inr (TrainerInputs model train_dataset eval_dataset data_collator) /\
    (exists samples, train_dataset = Some samples /\ Forall usable samples) /\
    (exists samples, eval_dataset = Some samples /\ Forall usable samples).
Proof.
  do 4 eexists. split; [vm_compute; reflexivity|].
  destruct (main_hands_over_usable_datasets _ Demo.env Demo.model_args
              (Demo.data_args None) Demo.train_and_eval _ _ _ _ eq_refl)
    as [_ [_ [Htr [Hev _]]]].
  split; [exact Htr | exact Hev].
Defined.

Lemma for_each_trace_Forall {A B} (P : event -> Prop) (f : A -> py B) (l : list A) :
  (forall a, Forall P (trace (f a))) -> Forall P (trace (for_each f l)).
Proof.
  intros Hf. induction l as [|a l IH]; [constructor|].
  cbn [for_each]. apply Forall_trace_bind; [apply Hf|]. intros b _.
  apply Forall_trace_bind; [exact IH|]. intros bs _. constructor.
Qed.

Lemma Dataset_filter_trace (rs : list (dict value)) :
  trace (Dataset_filter all_fields_not_None rs) = [].
Proof.
  induction rs as [|r rs IH]; [reflexivity|].
  cbn [Dataset_filter]. rewrite trace_bind, all_fields_not_None_trace.
  destruct (outcome (all_fields_not_None r)); [reflexivity|].
  rewrite trace_bind, IH.
  now destruct (outcome (Dataset_filter all_fields_not_None rs)).
Qed.

Lemma prepare_dataset_loads_no_model (Model : Type) (env : Collaborators Model)
  (data_args : DataTrainingArguments) (image_processor : ImageProcessor)
  (tokenizer : Tokenizer) (sample : dict value) :
  Forall not_model_load
         (trace (prepare_dataset env data_args image_processor tokenizer sample)).
Proof.
  rewrite prepare_dataset_unfold.
  apply Forall_trace_bind; [rewrite subscript_value_trace; constructor|].
  intros image _.
  apply Forall_trace_bind; [rewrite subscript_value_trace; constructor|].
  intros tv _.
  assert (Hfetch : Forall not_model_load
                     (trace (fetch_and_encode env data_args image_processor
                               tokenizer image (py_str tv)))).
  { destruct (fetch_and_encode_cases _ env data_args image_processor tokenizer
                image (py_str tv)) as [[e [-> _]] | [[msg ->] | [x [r [im [-> _]]]]]];
      repeat constructor. }
  destruct image; try exact Hfetch.
  rewrite encode_trace. constructor.
Qed.

Lemma process_dataset_loads_no_model (Model : Type) (env : Collaborators Model)
  (data_args : DataTrainingArguments) (image_processor : ImageProcessor)
  (tokenizer : Tokenizer) (remove_columns : list string) (dataset : Dataset) :
  Forall not_model_load
         (trace (process_dataset
                   (prepare_dataset env data_args image_processor tokenizer)
                   remove_columns dataset)).
Proof.
  unfold process_dataset, Dataset_map.
  apply Forall_trace_bind.
  - apply for_each_trace_Forall. intros row.
    apply Forall_trace_bind; [apply prepare_dataset_loads_no_model|].
    intros x _. constructor.
  - intros mapped _. rewrite Dataset_filter_trace. constructor.
Qed.

Lemma check_columns_trace (data_args : DataTrainingArguments)
  (raw_datasets : dict Dataset) :
  trace (check_columns data_args raw_datasets) = [].
Proof.
  unfold check_columns.
  rewrite (getattr_field data_args "image_column_name"
             (of_str (image_column_name data_args))) by reflexivity.
  rewrite (getattr_field data_args "text_column_name"
             (of_str (text_column_name data_args))) by reflexivity.
  rewrite !bind_ret_l.
  destruct raw_datasets as [|[k first] rest]; [reflexivity|].
  cbn [next_iter_values values map snd]. rewrite !bind_ret_l.
  destruct (not_in_columns (of_str (image_column_name data_args))
              (column_names first)); [reflexivity|].
  rewrite bind_ret_l.
  destruct (not_in_columns (of_str (text_column_name data_args))
              (column_names first)); reflexivity.
Qed.

Lemma select_range_trace (d : Dataset) (n : Z) : trace (select_range d n) = [].
Proof. unfold select_range. destruct (n <=? _); reflexivity. Qed.

Lemma not_model_load_of_flag (ev : event) :
  is_model_or_processor_load ev = false -> not_model_load ev.
Proof. destruct ev; simpl; intros H; (exact I || discriminate H). Qed.

Ltac trace_step :=
  apply Forall_trace_bind; [| intros ? _].

Ltac trace_silent :=
  first [ rewrite subscript_trace | rewrite select_range_trace
        | rewrite check_columns_trace ];
  constructor.

(** X17. A preprocessing-only run never calls a model loader: with
    [preprocessing_only] set, no [from_pretrained] of a model class is
    among the events of [main], whatever the collaborators do, and if
    [main] returns at all it returns right after the preprocessing,
    handing nothing to a trainer. *)
Theorem main_preprocessing_only_loads_no_model (Model : Type)
  (env : Collaborators Model) (model_args : ModelArguments)
  (data_args : DataTrainingArguments) (training_args : ImageCapTrainingArguments) :
  preprocessing_only data_args = true ->
  Forall not_model_load (trace (main env model_args data_args training_args)) /\
  (forall result,
     outcome (main env model_args data_args training_args) = inr result ->
     result = PreprocessingOnly).
Proof.
  intros Hpre. split.
  - unfold main. rewrite Hpre.
    trace_step.
    { eapply Forall_impl; [|apply load_raw_datasets_loads_no_model].
      intros ev. apply not_model_load_of_flag. }
    trace_step; [trace_silent|].
    trace_step; [repeat constructor|].
    trace_step; [constructor|].
    trace_step; [repeat constructor|].
    trace_step; [constructor|].
    trace_step; [repeat constructor|].
    trace_step; [constructor|].
    trace_step.
    { destruct (max_train_samples data_args); [|constructor].
      trace_step; [trace_silent|]. trace_step; [trace_silent|]. constructor. }
    trace_step.
    { destruct (max_eval_samples data_args); [|constructor].
      trace_step; [trace_silent|]. trace_step; [trace_silent|]. constructor. }
    trace_step; [trace_silent|].
    trace_step.
    { destruct (do_train training_args); [|constructor].
      trace_step; [trace_silent|].
      trace_step; [apply process_dataset_loads_no_model|]. constructor. }
    trace_step.
    { destruct (do_eval training_args); [|constructor].
      trace_step; [trace_silent|].
      trace_step; [apply process_dataset_loads_no_model|]. constructor. }
    repeat constructor.
  - intros result H. unfold main in H. rewrite Hpre in H.
    do 13 (apply bind_inr_inv in H; destruct H as [? [_ H]]).
    apply bind_inr_inv in H. destruct H as [[] [_ H]].
    simpl in H. now inversion H.
Qed.

Lemma main_preprocessing_only_loads_no_model_witness :
  outcome (main Demo.env Demo.model_args preprocessing_only_args
             Demo.train_and_eval)
  = inr PreprocessingOnly /\
  Forall not_model_load
         (trace (main Demo.env Demo.model_args preprocessing_only_args
                   Demo.train_and_eval)).
Proof.
  destruct (main_preprocessing_only_loads_no_model _ Demo.env Demo.model_args
              preprocessing_only_args Demo.train_and_eval eq_refl) as [Ht Hr].
  split; [|exact Ht].
  assert (Hret : exists result,
             outcome (main Demo.env Demo.model_args preprocessing_only_args
                        Demo.train_and_eval) = inr result)
    by (eexists; vm_compute; reflexivity).
  destruct Hret as [result Hret].
  rewrite <- (Hr result Hret). exact Hret.
Defined.

Lemma dict_get_set_same {V} (k : string) (v : V) (d : dict V) :
  dict_get k (dict_set k v d) = Some v.
Proof.
  induction d as [|[k' v'] d IH]; simpl.
  - now rewrite String.eqb_refl.
  - destruct (String.eqb k k') eqn:E; simpl; rewrite E; [reflexivity | exact IH].
Qed.

Lemma dict_get_set_other {V} (k k' : string) (v : V) (d : dict V) :
  k <> k' -> dict_get k (dict_set k' v d) = dict_get k d.
Proof.
  intros Hne. induction d as [|[k0 v0] d IH]; simpl.
  - destruct (String.eqb_spec k k'); [contradiction | reflexivity].
  - destruct (String.eqb_spec k' k0) as [->|Hne0]; simpl.
    + destruct (String.eqb_spec k k0); [contradiction | reflexivity].
    + destruct (String.eqb k k0); [reflexivity | exact IH].
Qed.

Lemma process_dataset_length (prepare : dict value -> py (dict value))
  (remove_columns : list string) (dataset : Dataset) (out : list (dict value)) :
  outcome (process_dataset prepare remove_columns dataset) = inr out ->
  (List.length out <= List.length (rows dataset))%nat.
Proof.
  unfold process_dataset. intros H.
  apply bind_inr_inv in H. destruct H as [mapped [Hmap H]].
  apply Dataset_filter_inr in H. destruct H as [-> _].
  unfold Dataset_map in Hmap. apply for_each_length in Hmap.
  rewrite <- Hmap. apply filter_length_le.
Qed.

Lemma select_range_inr (d d' : Dataset) (n : Z) :
  outcome (select_range d n) = inr d' ->
  n <= Z.of_nat (List.length (rows d)) /\
  rows d' = firstn (Z.to_nat n) (rows d) /\
  column_names d' = column_names d.
Proof.
  unfold select_range.
  destruct (Z.leb_spec n (Z.of_nat (List.length (rows d)))) as [Hle|Hgt];
    [|discriminate].
  intros E. inversion E. repeat split. exact Hle.
Qed.

(** X18. [max_train_samples] caps what is trained on: when it is set to
    [n] and [main] gets as far as the trainer, the training split had at
    least [n] rows (a larger cap makes [select] fail) and the training set
    handed over holds at most [n] samples, fewer when rows were dropped. *)
Theorem main_caps_training_set (Model : Type)
  (env : Collaborators Model) (model_args : ModelArguments)
  (data_args : DataTrainingArguments) (training_args : ImageCapTrainingArguments)
  (model : option Model) (samples : list (dict value))
  (eval_dataset : option (list (dict value)))
  (data_collator : DataCollatorWithPadding.t) (n : Z) :
  outcome (main env model_args data_args training_args)
  = inr (TrainerInputs model (Some samples) eval_dataset data_collator) ->
  max_train_samples data_args = Some n ->
  (List.length samples <= Z.to_nat n)%nat /\
  exists raw_datasets train,
    outcome (load_raw_datasets env model_args data_args training_args)
    = inr raw_datasets /\
    dict_get "train" raw_datasets = Some train /\
    n <= Z.of_nat (List.length (rows train)).
Proof.
  intros H Hcap.
  assert (Htrain : do_train training_args = true).
  { destruct (do_train training_args) eqn:E; [reflexivity|].
    rewrite (main_without_training _ env model_args data_args training_args E) in H.
    discriminate H. }
  unfold main in H. rewrite Htrain, Hcap in H.
  apply bind_inr_inv in H. destruct H as [raw [Hraw H]].
  do 7 (apply bind_inr_inv in H; destruct H as [? [_ H]]).
  apply bind_inr_inv in H. destruct H as [raw1 [Hraw1 H]].
  apply bind_inr_inv in H. destruct H as [raw2 [Hraw2 H]].
  apply bind_inr_inv in H. destruct H as [train [_ H]].
  apply bind_inr_inv in H. destruct H as [vec1 [Hvec1 H]].
  apply bind_inr_inv in H. destruct H as [vec2 [Hvec2 H]].
  destruct (preprocessing_only data_args).
  { apply bind_inr_inv in H. destruct H as [[] [_ H]]. discriminate H. }
  do 2 (apply bind_inr_inv in H; destruct H as [? [_ H]]).
  apply bind_inr_inv in H. destruct H as [tr [Htr H]].
  apply bind_inr_inv in H. destruct H as [ev [_ H]].
  simpl in H. inversion H; subst; clear H.
  (* the cap *)
  apply bind_inr_inv in Hraw1. destruct Hraw1 as [train0 [Htrain0 Hraw1]].
  apply bind_inr_inv in Hraw1. destruct Hraw1 as [d [Hsel Hraw1]].
  simpl in Hraw1. inversion Hraw1; subst raw1; clear Hraw1.
  apply subscript_inr in Htrain0.
  apply select_range_inr in Hsel. destruct Hsel as [Hn [Hrows _]].
  assert (Hget2 : dict_get "train" raw2 = Some d).
  { destruct (max_eval_samples data_args).
    - apply bind_inr_inv in Hraw2. destruct Hraw2 as [val [_ Hraw2]].
      apply bind_inr_inv in Hraw2. destruct Hraw2 as [d' [_ Hraw2]].
      simpl in Hraw2. inversion Hraw2; subst raw2.
      rewrite dict_get_set_other by discriminate. apply dict_get_set_same.
    - simpl in Hraw2. inversion Hraw2; subst raw2. apply dict_get_set_same. }
  (* the training set *)
  apply bind_inr_inv in Hvec1. destruct Hvec1 as [d1 [Hd1 Hvec1]].
  apply bind_inr_inv in Hvec1. destruct Hvec1 as [v [Hv Hvec1]].
  simpl in Hvec1. inversion Hvec1; subst vec1; clear Hvec1.
  apply subscript_inr in Hd1. rewrite Hget2 in Hd1. inversion Hd1; subst d1.
  apply process_dataset_length in Hv.
  assert (Hvec : dict_get "train" vec2 = Some v).
  { destruct (do_eval training_args).
    - apply bind_inr_inv in Hvec2. destruct Hvec2 as [d' [_ Hvec2]].
      apply bind_inr_inv in Hvec2. destruct Hvec2 as [v' [_ Hvec2]].
      simpl in Hvec2. inversion Hvec2; subst vec2. reflexivity.
    - simpl in Hvec2. inversion Hvec2; subst vec2. reflexivity. }
  apply bind_inr_inv in Htr. destruct Htr as [v0 [Hv0 Htr]].
  apply subscript_inr in Hv0. rewrite Hvec in Hv0. inversion Hv0; subst v0.
  simpl in Htr. inversion Htr; subst samples.
  split.
  - rewrite Hrows, length_firstn in Hv. lia.
  - exists raw, train0. split; [exact Hraw|]. split; [exact Htrain0 | exact Hn].
Qed.

Lemma main_caps_training_set_witness :
  exists model samples eval_dataset data_collator,
    outcome (main Demo.env Demo.model_args
               {| dataset_name := Some "captions";
                  dataset_config_name := None;
                  max_train_samples := Some 1;
                  max_eval_samples := None;
                  image_column_name := Some "image";
                  text_column_name := Some "text";
                  preprocessing_only := false;
                  train_split_name := Some "train";
                  eval_split_name := None;
                  requests_timeout := 1 |}
               Demo.train_and_eval)
    = inr (TrainerInputs model (Some samples) eval_dataset data_collator) /\
    (List.length samples <= 1)%nat.
Proof.
  do 4 eexists. split; [vm_compute; reflexivity|].
  apply (main_caps_training_set _ Demo.env Demo.model_args
           {| dataset_name := Some "captions";
              dataset_config_name := None;
              max_train_samples := Some 1;
              max_eval_samples := None;
              image_column_name := Some "image";
              text_column_name := Some "text";
              preprocessing_only := false;
              train_split_name := Some "train";
              eval_split_name := None;
              requests_timeout := 1 |}
           Demo.train_and_eval _ _ _ _ 1 eq_refl eq_refl).
Defined.

(** X19. Naming an evaluation split without requesting evaluation switches
    the hold-out off: with [do_train] set, [do_eval] unset and a non-empty
    [eval_split_name], step 3 loads the training split and nothing else;
    the training set is left whole, no validation split exists, and the
    named split is never loaded. *)
Theorem load_raw_datasets_named_split_without_eval (Model : Type)
  (env : Collaborators Model) (model_args : ModelArguments)
  (data_args : DataTrainingArguments) (training_args : ImageCapTrainingArguments)
  (d : Dataset) (c : ascii) (s : string) :
  do_train training_args = true ->
  do_eval training_args = false ->
  eval_split_name data_args = Some (String c s) ->
  train_load env model_args data_args = inr d ->
  load_raw_datasets env model_args data_args training_args
  = ([train_load_event model_args data_args], inr [("train", d)]).
Proof.
  intros Htrain Heval Hesn Hload.
  rewrite (load_raw_datasets_after_train _ env model_args data_args training_args
             d Htrain Hload).
  rewrite Heval, Hesn. reflexivity.
Qed.

Lemma load_raw_datasets_named_split_without_eval_witness :
  load_raw_datasets Demo.env Demo.model_args (Demo.data_args (Some "test"))
    {| do_train := true; do_eval := false |}
  = ([LoadDataset (VStr "captions") VNone (VStr "train") VNone],
     inr [("train", Demo.captions)]).
Proof.
  apply (load_raw_datasets_named_split_without_eval _ Demo.env Demo.model_args
           (Demo.data_args (Some "test")) {| do_train := true; do_eval := false |}
           Demo.captions "t" "est"); reflexivity.
Defined.

(** X20. The collator's validation never fires on what the pipeline
    produced: every batch drawn from a dataset [process_dataset] returned
    has no feature without [input_ids], so the validation loop logs
    nothing and counts zero, whatever the per-row transform was. *)
Theorem pipeline_output_passes_validation
  (prepare : dict value -> py (dict value)) (remove_columns : list string)
  (dataset : Dataset) (out features : list (dict value)) :
  outcome (process_dataset prepare remove_columns dataset) = inr out ->
  incl features out ->
  malformed features = [] /\
  DataCollatorWithPadding.count_missing 0 features 0 = ([], inr 0%nat).
Proof.
  intros Hout Hincl.
  apply process_dataset_usable in Hout.
  assert (Hm : malformed features = []).
  { apply malformed_none. apply Forall_forall. intros f Hf.
    rewrite Forall_forall in Hout.
    destruct (Hout f (Hincl f Hf)) as [pv [ii [am [_ [_ [Hii _]]]]]].
    unfold dict_has. now rewrite Hii. }
  split; [exact Hm|].
  rewrite count_missing_spec. fold (enumerate features). fold (malformed features).
  now rewrite Hm.
Qed.

Lemma pipeline_output_passes_validation_witness :
  exists out,
    outcome (process_dataset
               (prepare_dataset Demo.env (Demo.data_args None)
                  Demo.image_processor (Demo.tokenizer 0))
               ["image"; "text"] Demo.captions) = inr out /\
    DataCollatorWithPadding.count_missing 0 out 0 = ([], inr 0%nat).
Proof.
  eexists. split; [reflexivity|].
  apply (pipeline_output_passes_validation
           (prepare_dataset Demo.env (Demo.data_args None)
              Demo.image_processor (Demo.tokenizer 0))
           ["image"; "text"] Demo.captions _ _ eq_refl).
  apply incl_refl.
Defined.
